(** * Teacher dashboard (src/pages/teacher.py): a shallow embedding

    The page is one Streamlit script.  It fetches every submission, builds a
    pandas DataFrame, converts [created_at], shows three pass-rate metrics, a
    bar chart, an hourly line chart, a search box with a detail view, the
    sorted table and a CSV download.

    Conventions of the model.
    - A Python [str] is its UTF-8 byte string ([string]); prefix and substring
      tests on code points and on UTF-8 bytes agree.
    - A fetched record is a JSON object whose values are text or null, kept as
      an association list in key order.
    - A timestamp is the integer number of nanoseconds since the epoch (the
      int64 behind a pandas [Timestamp]), in UTC.
    - The format pandas infers for a column of timestamp texts, what it
      makes of one text under that format, what Python's [re] does with a
      pattern outside the modelled fragment, and how timestamps are printed,
      are parameters of the development (Section variables).
    - The widgets the script emits are collected in a log, in program order.
      Layout containers ([st.columns] and the [with] blocks) and
      [st.set_page_config] leave no entry; a metric entry carries the number
      before it is formatted to one decimal. *)

From Stdlib Require Uint63 Finite.
From Stdlib Require Import PrimFloat.
From Stdlib Require Import ZArith List String Ascii Bool Lia Arith Sorted Permutation.
Import ListNotations.
Open Scope string_scope.
Open Scope list_scope.
Open Scope Z_scope.

(** ** Cells and frames *)

(** A DataFrame cell: a missing value (None, NaN or NaT), a text or a
    timestamp. *)
Inductive cell : Type :=
| NA
| Str (s : string)
| Ts (t : Z).

Record DataFrame : Type := mkDF {
  columns : list string;
  rows : list (list cell)
}.

(** A fetched record (one element of [response.data]). *)
Definition record : Type := list (string * option string).

(** What [pd.to_datetime] makes of one text: a timestamp, a missing value
    (as for the empty text), or a refusal. *)
Inductive parsed : Type :=
| Stamp (t : Z)
| Missing
| Bad.

(** The format pandas infers for a column from its texts (a [strftime]
    pattern, taken from the first text that is not read as missing), or
    nothing when it infers none and reads each text on its own. *)
Definition format_rule : Type := list string -> option string.

(** One text read under the format of its column. *)
Definition text_parser : Type := option string -> string -> parsed.

(** [re.compile] on a pattern outside the modelled fragment: nothing when
    Python rejects the pattern ([re.error]), else what [search] answers. *)
Definition pattern_rule : Type := string -> option (string -> bool).

(** ** Exceptions and the script monad *)

(** The exceptions of the page.  [ParserError] is the error
    [pd.to_datetime] raises for a text it refuses (a ValueError in Python),
    kept apart from the other ValueErrors because it carries that text;
    [ReError] is [re.error], raised for an invalid search pattern. *)
Inductive exn : Type :=
| KeyError (k : string)
| ParserError (text : string)
| ValueError
| IndexError
| ZeroDivisionError
| ReError.

(** The result of one statement: a value, [st.stop()], a raised exception, or
    a library behaviour this model does not describe. *)
Inductive outcome (A : Type) : Type :=
| Val (a : A)
| Halt
| Raise (e : exn)
| Beyond.
Arguments Val {A} a.
Arguments Halt {A}.
Arguments Raise {A} e.
Arguments Beyond {A}.

(** What the page shows. *)
Inductive widget : Type :=
| Title
| Markdown
| InfoNoData
| MetricTotal (n : Z)
| MetricRate (question : nat) (percent : PrimFloat.float)
| Divider
| Subheader (section : nat)
| BarChart (passed failed : list Z)
| LineChart (series : list (Z * Z))
| TextInput
| Selectbox (options : list cell)
| AnswerBox (question : nat) (c : cell)
| FeedbackBox (question : nat) (c : cell)
| SubmittedAt (text : string)
| ModelUsed (c : cell)
| Table (df : DataFrame)
| DownloadButton (data file_name : string)
| ErrorBox (e : exn)
| InfoHint.

(** Sequencing of library calls that may raise. *)
Definition and_then {A B} (o : outcome A) (k : A -> outcome B) : outcome B :=
  match o with
  | Val a => k a
  | Halt => Halt
  | Raise e => Raise e
  | Beyond => Beyond
  end.

Definition M (A : Type) : Type := list widget -> list widget * outcome A.

Definition ret {A} (a : A) : M A := fun log => (log, Val a).

Definition bind {A B} (m : M A) (k : A -> M B) : M B :=
  fun log =>
    match m log with
    | (log', Val a) => k a log'
    | (log', Halt) => (log', Halt)
    | (log', Raise e) => (log', Raise e)
    | (log', Beyond) => (log', Beyond)
    end.

Definition emit (w : widget) : M unit := fun log => (log ++ [w], Val tt).
Definition stop {A} : M A := fun log => (log, Halt).
Definition lift {A} (o : outcome A) : M A := fun log => (log, o).

Notation "x <- m ;; k" := (bind m (fun x => k))
  (at level 61, m at next level, right associativity).
Notation "m ;;; k" := (bind m (fun _ => k))
  (at level 61, right associativity).

(** ** pandas: construction and column access *)

Fixpoint lookup (k : string) (r : record) : option (option string) :=
  match r with
  | [] => None
  | (k', v) :: r' => if String.eqb k k' then Some v else lookup k r'
  end.

Fixpoint mem (k : string) (ks : list string) : bool :=
  match ks with
  | [] => false
  | k' :: ks' => String.eqb k k' || mem k ks'
  end.

(** Column labels of [pd.DataFrame(data)]: the keys of the records in order
    of first appearance. *)
Definition add_keys (acc : list string) (r : record) : list string :=
  fold_left (fun a kv => if mem (fst kv) a then a else a ++ [fst kv]) r acc.

Definition union_keys (data : list record) : list string :=
  fold_left add_keys data [].

Definition cell_of (r : record) (k : string) : cell :=
  match lookup k r with
  | Some (Some s) => Str s
  | _ => NA
  end.

(** [pd.DataFrame(data)]: one row per record, a missing key or a null value
    gives a missing cell. *)
Definition pd_DataFrame (data : list record) : DataFrame :=
  let cols := union_keys data in
  mkDF cols (map (fun r => map (cell_of r) cols) data).

Definition len (df : DataFrame) : Z := Z.of_nat (List.length (rows df)).

Fixpoint index_of (k : string) (ks : list string) : option nat :=
  match ks with
  | [] => None
  | k' :: ks' =>
      if String.eqb k k' then Some O
      else match index_of k ks' with
           | Some i => Some (S i)
           | None => None
           end
  end.

(** [df[k]]: the column, or KeyError. *)
Definition getitem (df : DataFrame) (k : string) : outcome (list cell) :=
  match index_of k (columns df) with
  | Some i => Val (map (fun r => nth i r NA) (rows df))
  | None => Raise (KeyError k)
  end.

Fixpoint set_nth (i : nat) (c : cell) (r : list cell) : list cell :=
  match r, i with
  | [], _ => []
  | _ :: r', O => c :: r'
  | x :: r', S i' => x :: set_nth i' c r'
  end.

Fixpoint zip_rows (f : cell -> list cell -> list cell)
         (col : list cell) (rs : list (list cell)) : list (list cell) :=
  match col, rs with
  | c :: col', r :: rs' => f c r :: zip_rows f col' rs'
  | _, _ => []
  end.

(** [df[k] = col] for a column of the frame's length: an existing column is
    replaced in place, a new one is appended. *)
Definition setitem (df : DataFrame) (k : string) (col : list cell) : DataFrame :=
  match index_of k (columns df) with
  | Some i => mkDF (columns df) (zip_rows (set_nth i) col (rows df))
  | None => mkDF (columns df ++ [k])
                 (zip_rows (fun c r => r ++ [c]) col (rows df))
  end.

(** ** Strings *)

(** [s.startswith(p)] *)
Fixpoint startswith (p s : string) : bool :=
  match p, s with
  | EmptyString, _ => true
  | String a p', String b s' => Ascii.eqb a b && startswith p' s'
  | String _ _, EmptyString => false
  end.

(** [col.str.startswith(p)]: missing cells give a missing answer. *)
Definition str_startswith (p : string) (col : list cell) : list (option bool) :=
  map (fun c => match c with Str s => Some (startswith p s) | _ => None end) col.

(** [.sum()] of a boolean column, missing answers skipped. *)
Fixpoint sum_bool (bs : list (option bool)) : Z :=
  match bs with
  | [] => 0
  | Some true :: bs' => 1 + sum_bool bs'
  | _ :: bs' => sum_bool bs'
  end.

(** ** Metrics *)

Definition to_float (z : Z) : PrimFloat.float :=
  PrimFloat.of_uint63 (Uint63.of_Z z).

(** [a / b]; a zero divisor is recorded as ZeroDivisionError. *)
Definition truediv (a b : Z) : outcome PrimFloat.float :=
  if b =? 0 then Raise ZeroDivisionError
  else Val (PrimFloat.div (to_float a) (to_float b)).

(** [q_pass / len(df) * 100] *)
Definition pass_rate (q_pass total : Z) : outcome PrimFloat.float :=
  and_then (truediv q_pass total)
           (fun x => Val (PrimFloat.mul x (to_float 100))).

(** [df['feedback_i'].str.startswith("O:").sum()] *)
Definition q_pass (df : DataFrame) (column : string) : outcome Z :=
  and_then (getitem df column)
           (fun col => Val (sum_bool (str_startswith "O:" col))).

(** ** Hourly time series *)

(** One hour in nanoseconds. *)
Definition hour : Z := 3600 * 1000000000.

(** The start of the hour a timestamp lies in. *)
Definition floor_hour (t : Z) : Z := t / hour * hour.

(** Number of timestamps in the half-open interval from [lo] to [hi]. *)
Definition count_in (lo hi : Z) (ts : list Z) : Z :=
  Z.of_nat (List.length (filter (fun t => (lo <=? t) && (t <? hi)) ts)).

(** [.resample('H').size()] over a timestamp index without missing values:
    bins are closed on the left and labelled by their start; they run, one
    per hour, from the hour of the earliest timestamp to the hour of the
    latest, and each carries the number of timestamps inside it. *)
Definition resample_H_size (ts : list Z) : list (Z * Z) :=
  match ts with
  | [] => []
  | t0 :: ts' =>
      let first := floor_hour (fold_left Z.min ts' t0) in
      let last := floor_hour (fold_left Z.max ts' t0) in
      map (fun k => let b := first + Z.of_nat k * hour in
                    (b, count_in b (b + hour) ts))
          (seq 0 (S (Z.to_nat ((last - first) / hour))))
  end.

(** The timestamps of a column, when none is missing. *)
Fixpoint timestamps (col : list cell) : option (list Z) :=
  match col with
  | [] => Some []
  | Ts t :: col' => option_map (cons t) (timestamps col')
  | _ :: _ => None
  end.

(** [df.set_index('created_at').resample('H').size().reset_index(name='count')].
    An index with missing timestamps is outside the model. *)
Definition df_time (df : DataFrame) : outcome (list (Z * Z)) :=
  and_then (getitem df "created_at")
           (fun col => match timestamps col with
                       | Some ts => Val (resample_H_size ts)
                       | None => Beyond
                       end).

(** ** Regular expressions: the modelled fragment of Python's [re]

    [Series.str.contains(pat)] treats [pat] as a regular expression
    ([regex=True] is the default) and keeps the rows where [re.search]
    succeeds.  Patterns made of ordinary characters and the dot are modelled
    in full; what Python does with any other pattern is a parameter. *)

Inductive atom : Type :=
| Lit (c : ascii)
| AnyChar.

Definition dot : ascii := ".".

(** The special characters of Python's regular expressions other than the
    dot. *)
Definition special (c : ascii) : bool :=
  existsb (Ascii.eqb c)
          ["^"; "$"; "*"; "+"; "?"; "{"; "}"; "["; "]"; "\"; "|"; "("; ")"]%char.

Fixpoint re_compile (p : string) : option (list atom) :=
  match p with
  | EmptyString => Some []
  | String c p' =>
      if Ascii.eqb c dot then option_map (cons AnyChar) (re_compile p')
      else if special c then None
      else option_map (cons (Lit c)) (re_compile p')
  end.

Definition newline : ascii := ascii_of_nat 10.

(** UTF-8 continuation bytes, 0x80 to 0xBF. *)
Definition is_continuation (c : ascii) : bool :=
  (128 <=? nat_of_ascii c)%nat && (nat_of_ascii c <? 192)%nat.

Fixpoint skip_continuation (s : string) : string :=
  match s with
  | EmptyString => EmptyString
  | String c s' => if is_continuation c then skip_continuation s' else s
  end.

(** A match that starts at the head of [s].  The dot takes one whole encoded
    character other than a newline. *)
Fixpoint match_here (p : list atom) (s : string) : bool :=
  match p with
  | [] => true
  | a :: p' =>
      match s with
      | EmptyString => false
      | String c s' =>
          match a with
          | Lit x => Ascii.eqb x c && match_here p' s'
          | AnyChar => negb (Ascii.eqb c newline)
                       && match_here p' (skip_continuation s')
          end
      end
  end.

(** [re.search]: a match starting anywhere. *)
Fixpoint re_search (p : list atom) (s : string) : bool :=
  match_here p s
  || match s with
     | EmptyString => false
     | String _ s' => re_search p s'
     end.

(** [col.str.contains(pat)]: the pattern is compiled once, which raises
    when it is invalid, then searched in every text. *)
Definition str_contains (re_beyond : pattern_rule) (pat : string)
           (col : list cell) : outcome (list (option bool)) :=
  match re_compile pat with
  | Some p =>
      Val (map (fun c => match c with
                         | Str s => Some (re_search p s)
                         | _ => None
                         end) col)
  | None =>
      match re_beyond pat with
      | Some found =>
          Val (map (fun c => match c with
                             | Str s => Some (found s)
                             | _ => None
                             end) col)
      | None => Raise ReError
      end
  end.

(** [df[mask]]: a mask with a missing answer cannot be used. *)
Fixpoint boolean_index (mask : list (option bool)) (rs : list (list cell))
  : outcome (list (list cell)) :=
  match mask, rs with
  | Some true :: mask', r :: rs' =>
      and_then (boolean_index mask' rs') (fun kept => Val (r :: kept))
  | Some false :: mask', _ :: rs' => boolean_index mask' rs'
  | None :: _, _ :: _ => Raise ValueError
  | _, _ => Val []
  end.

(** Lines 84 to 87: the searched view. *)
Definition display_df (re_beyond : pattern_rule) (df : DataFrame)
           (search_id : string) : outcome DataFrame :=
  match search_id with
  | EmptyString => Val df
  | String _ _ =>
      and_then (getitem df "student_id") (fun col =>
      and_then (str_contains re_beyond search_id col) (fun mask =>
      and_then (boolean_index mask (rows df)) (fun kept =>
      Val (mkDF (columns df) kept))))
  end.

(** ** Detail view *)

(** [df.empty] *)
Definition empty (df : DataFrame) : bool :=
  match columns df, rows df with
  | [], _ => true
  | _, [] => true
  | _, _ => false
  end.

(** Elementwise [==] against a scalar: a missing value equals nothing. *)
Definition cell_eqb (a b : cell) : bool :=
  match a, b with
  | Str x, Str y => String.eqb x y
  | Ts x, Ts y => x =? y
  | _, _ => false
  end.

(** The option the select box returns: the chosen one, the first by
    default. *)
Definition selected (options : list cell) (choice : nat) : cell :=
  nth choice options (hd NA options).

(** [display_df[display_df['student_id'] == selected_student].iloc[0]] *)
Definition row (shown : DataFrame) (selected_student : cell)
  : outcome (list cell) :=
  and_then (getitem shown "student_id") (fun ids =>
  and_then (boolean_index (map (fun c => Some (cell_eqb c selected_student)) ids)
                          (rows shown)) (fun matching =>
  match matching with
  | r :: _ => Val r
  | [] => Raise IndexError
  end)).

(** [row[k]] *)
Definition row_get (cols : list string) (r : list cell) (k : string)
  : outcome cell :=
  match index_of k cols with
  | Some i => Val (nth i r NA)
  | None => Raise (KeyError k)
  end.

(** ** Sorting for the table *)

(** [a] may stand before [b] when sorting descending with missing values
    last. *)
Definition before_desc (a b : cell) : bool :=
  match a, b with
  | _, NA => true
  | NA, _ => false
  | Ts x, Ts y => y <=? x
  | _, _ => true
  end.

Fixpoint insert_desc (i : nat) (r : list cell) (sorted : list (list cell))
  : list (list cell) :=
  match sorted with
  | [] => [r]
  | r' :: rest =>
      if before_desc (nth i r NA) (nth i r' NA) then r :: sorted
      else r' :: insert_desc i r rest
  end.

(** [df.sort_values(by=k, ascending=False)]: a new frame, [df] itself is
    left as it is.  pandas does not fix the order of rows with equal keys;
    the model keeps them in their original order. *)
Definition sort_values_desc (df : DataFrame) (k : string) : outcome DataFrame :=
  match index_of k (columns df) with
  | Some i => Val (mkDF (columns df) (fold_right (insert_desc i) [] (rows df)))
  | None => Raise (KeyError k)
  end.

(** ** CSV *)

Definition dquote : ascii := ascii_of_nat 34.
Definition comma : ascii := ",".

(** A field is quoted when it holds the delimiter, the quote character or
    the line terminator, which is the line feed. *)
Fixpoint needs_quote (s : string) : bool :=
  match s with
  | EmptyString => false
  | String c s' =>
      Ascii.eqb c comma || Ascii.eqb c dquote
      || Ascii.eqb c newline || needs_quote s'
  end.

Fixpoint double_quotes (s : string) : string :=
  match s with
  | EmptyString => EmptyString
  | String c s' =>
      if Ascii.eqb c dquote then String c (String c (double_quotes s'))
      else String c (double_quotes s')
  end.

(** One field under minimal quoting. *)
Definition csv_field (s : string) : string :=
  if needs_quote s
  then String dquote (double_quotes s ++ String dquote EmptyString)
  else s.

Fixpoint join_fields (fs : list string) : string :=
  match fs with
  | [] => EmptyString
  | [f] => f
  | f :: fs' => f ++ String comma (join_fields fs')
  end.

(** One line; a line whose only field is empty is written as a quoted empty
    field. *)
Definition csv_line (fields : list string) : string :=
  match fields with
  | [EmptyString] => String dquote (String dquote (String newline EmptyString))
  | _ => join_fields (map csv_field fields) ++ String newline EmptyString
  end.

(** The UTF-8 byte order mark, EF BB BF. *)
Definition bom : string :=
  String (ascii_of_nat 239) (String (ascii_of_nat 187)
         (String (ascii_of_nat 191) EmptyString)).

(** [.encode('utf-8-sig')] *)
Definition encode_utf_8_sig (s : string) : string := bom ++ s.

(** ** The page *)

(** The texts of a column, in order. *)
Fixpoint texts (col : list cell) : list string :=
  match col with
  | [] => []
  | Str s :: col' => s :: texts col'
  | _ :: col' => texts col'
  end.

(** How a run of the script ends. *)
Inductive ending : Type :=
| Completed
| Stopped
| Failed (e : exn)
| Unmodelled.

Section Page.

(** The format [pd.to_datetime] infers for the column. *)
Variable infer_format : format_rule.
(** One text of the column under that format. *)
Variable parse_text : text_parser.
(** Python's [re] on patterns outside the modelled fragment. *)
Variable re_beyond : pattern_rule.
(** How [to_csv] writes a timestamp. *)
Variable format_ts : Z -> string.
(** [Timestamp.strftime('%Y-%m-%d %H:%M:%S')] *)
Variable strftime : Z -> string.
(** [pd.Timestamp.now().strftime('%Y%m%d')] at the time of the run. *)
Variable today : string.

(** The texts of the column are read in order under one format [f]; the
    first text that is refused raises, with that text in the error.  Missing
    values stay missing and a text read as missing becomes missing. *)
Fixpoint convert (f : option string) (col : list cell) : outcome (list cell) :=
  match col with
  | [] => Val []
  | c :: col' =>
      match c with
      | Str s =>
          match parse_text f s with
          | Stamp t => and_then (convert f col') (fun r => Val (Ts t :: r))
          | Missing => and_then (convert f col') (fun r => Val (NA :: r))
          | Bad => Raise (ParserError s)
          end
      | _ => and_then (convert f col') (fun r => Val (c :: r))
      end
  end.

(** [pd.to_datetime(col)]: one format is inferred for the whole column, then
    every text is read under it. *)
Definition to_datetime (col : list cell) : outcome (list cell) :=
  convert (infer_format (texts col)) col.

(** Lines 28 to 35: the fetched records become the frame all later steps
    read.  No data ends the run through [st.stop()]. *)
Definition load (data : list record) : M DataFrame :=
  match data with
  | [] => emit InfoNoData ;;; stop
  | _ :: _ =>
      let df := pd_DataFrame data in
      created <- lift (getitem df "created_at") ;;
      parsed <- lift (to_datetime created) ;;
      ret (setitem df "created_at" parsed)
  end.

(** Lines 38 to 52. *)
Definition metrics (df : DataFrame) : M (Z * Z * Z) :=
  emit (MetricTotal (len df)) ;;;
  q1_pass <- lift (q_pass df "feedback_1") ;;
  q2_pass <- lift (q_pass df "feedback_2") ;;
  q3_pass <- lift (q_pass df "feedback_3") ;;
  r1 <- lift (pass_rate q1_pass (len df)) ;;
  emit (MetricRate 1 r1) ;;;
  r2 <- lift (pass_rate q2_pass (len df)) ;;
  emit (MetricRate 2 r2) ;;;
  r3 <- lift (pass_rate q3_pass (len df)) ;;
  emit (MetricRate 3 r3) ;;;
  ret (q1_pass, q2_pass, q3_pass).

(** Lines 54 to 76. *)
Definition charts (df : DataFrame) (passed : Z * Z * Z) : M unit :=
  let '(q1_pass, q2_pass, q3_pass) := passed in
  emit Divider ;;;
  emit (Subheader 4) ;;;
  emit (BarChart [q1_pass; q2_pass; q3_pass]
                 [len df - q1_pass; len df - q2_pass; len df - q3_pass]) ;;;
  series <- lift (df_time df) ;;
  emit (LineChart series).

(** Lines 91 to 110: the detail of the selected student. *)
Definition detail (shown : DataFrame) (choice : nat) : M unit :=
  options <- lift (getitem shown "student_id") ;;
  emit (Selectbox options) ;;;
  r <- lift (row shown (selected options choice)) ;;
  let field k := lift (row_get (columns shown) r k) in
  a1 <- field "answer_1" ;; emit (AnswerBox 1 a1) ;;;
  f1 <- field "feedback_1" ;; emit (FeedbackBox 1 f1) ;;;
  a2 <- field "answer_2" ;; emit (AnswerBox 2 a2) ;;;
  f2 <- field "feedback_2" ;; emit (FeedbackBox 2 f2) ;;;
  a3 <- field "answer_3" ;; emit (AnswerBox 3 a3) ;;;
  f3 <- field "feedback_3" ;; emit (FeedbackBox 3 f3) ;;;
  created <- field "created_at" ;;
  match created with
  | Ts t =>
      emit (SubmittedAt (strftime t)) ;;;
      m <- field "model" ;;
      emit (ModelUsed m)
  | _ => lift (Raise ValueError)
  end.

(** Lines 79 to 110. *)
Definition search_and_detail (df : DataFrame) (search_id : string)
           (choice : nat) : M unit :=
  emit Divider ;;;
  emit (Subheader 5) ;;;
  emit TextInput ;;;
  shown <- lift (display_df re_beyond df search_id) ;;
  if empty shown then ret tt else detail shown choice.

Definition render (c : cell) : string :=
  match c with
  | NA => EmptyString
  | Str s => s
  | Ts t => format_ts t
  end.

(** [df.to_csv(index=False)]: the header, then the rows of [df] in the
    order [df] has them. *)
Definition to_csv (df : DataFrame) : string :=
  csv_line (columns df)
  ++ String.concat EmptyString
       (map (fun r => csv_line (map render r)) (rows df)).

(** Line 118. *)
Definition csv (df : DataFrame) : string := encode_utf_8_sig (to_csv df).

(** Lines 113 to 124. *)
Definition table_and_export (df : DataFrame) : M unit :=
  emit Divider ;;;
  emit (Subheader 6) ;;;
  sorted <- lift (sort_values_desc df "created_at") ;;
  emit (Table sorted) ;;;
  emit (DownloadButton (csv df)
                       ("evaluation_results_" ++ today ++ ".csv")).

(** The body of the [try]. *)
Definition body (data : list record) (search_id : string) (choice : nat)
  : M unit :=
  df <- load data ;;
  passed <- metrics df ;;
  charts df passed ;;;
  search_and_detail df search_id choice ;;;
  table_and_export df.

(** The whole script: title and caption, the [try] body, and the
    [except Exception] handler.  [st.stop()] is not an [Exception] and
    passes through the handler. *)
Definition run (data : list record) (search_id : string) (choice : nat)
  : list widget * ending :=
  match body data search_id choice [Title; Markdown] with
  | (log, Val _) => (log, Completed)
  | (log, Halt) => (log, Stopped)
  | (log, Raise e) => (log ++ [ErrorBox e; InfoHint], Failed e)
  | (log, Beyond) => (log, Unmodelled)
  end.

End Page.

(** ** Canonical sets *)

(** A normalized submission: every field populated, [created_at] parsed. *)
Record Submission : Type := mkSubmission {
  student_id : string;
  answer_1 : string;
  answer_2 : string;
  answer_3 : string;
  feedback_1 : string;
  feedback_2 : string;
  feedback_3 : string;
  model : string;
  created_at : Z
}.

Definition submission_columns : list string :=
  ["student_id"; "answer_1"; "answer_2"; "answer_3";
   "feedback_1"; "feedback_2"; "feedback_3"; "model"; "created_at"].

Definition submission_row (s : Submission) : list cell :=
  [Str (student_id s); Str (answer_1 s); Str (answer_2 s); Str (answer_3 s);
   Str (feedback_1 s); Str (feedback_2 s); Str (feedback_3 s); Str (model s);
   Ts (created_at s)].

(** The frame of a canonical set, as [load] leaves it. *)
Definition frame (subs : list Submission) : DataFrame :=
  mkDF submission_columns (map submission_row subs).

(** The fetched record of a submission whose timestamp arrived as [text]. *)
Definition fetched (s : Submission) (text : string) : record :=
  [("student_id", Some (student_id s)); ("answer_1", Some (answer_1 s));
   ("answer_2", Some (answer_2 s)); ("answer_3", Some (answer_3 s));
   ("feedback_1", Some (feedback_1 s)); ("feedback_2", Some (feedback_2 s));
   ("feedback_3", Some (feedback_3 s)); ("model", Some (model s));
   ("created_at", Some text)].

(** ** A sample timestamp syntax for the examples

    The examples below run the page with a sample of the parameters: two
    timestamp forms, YYYY-MM-DDTHH:MM:SS and YYYY-MM-DD HH:MM (read as UTC),
    the format of the column taken from its first text that is not empty,
    the empty text read as missing, every pattern outside the fragment
    rejected, and a printer that writes YYYY-MM-DD HH:MM:SS.  The theorems
    hold for every choice of the parameters. *)

Definition digit (c : ascii) : option Z :=
  let n := nat_of_ascii c in
  if ((48 <=? n) && (n <=? 57))%nat then Some (Z.of_nat (n - 48)) else None.

Fixpoint number (cs : list ascii) (acc : Z) : option Z :=
  match cs with
  | [] => Some acc
  | c :: cs' =>
      match digit c with
      | Some d => number cs' (10 * acc + d)
      | None => None
      end
  end.

(** Days from 1970-01-01 to a date of the proleptic Gregorian calendar. *)
Definition days_from_civil (y m d : Z) : Z :=
  let y' := if m <=? 2 then y - 1 else y in
  let era := y' / 400 in
  let yoe := y' - era * 400 in
  let doy := (153 * (if 2 <? m then m - 3 else m + 9) + 2) / 5 + d - 1 in
  let doe := yoe * 365 + yoe / 4 - yoe / 100 + doy in
  era * 146097 + doe - 719468.

Definition second : Z := 1000000000.

Definition iso_parse (s : string) : option Z :=
  match list_ascii_of_string s with
  | [y1; y2; y3; y4; "-"; m1; m2; "-"; d1; d2; "T";
     h1; h2; ":"; n1; n2; ":"; s1; s2]%char =>
      match number [y1; y2; y3; y4] 0, number [m1; m2] 0, number [d1; d2] 0,
            number [h1; h2] 0, number [n1; n2] 0, number [s1; s2] 0 with
      | Some y, Some m, Some d, Some hh, Some mm, Some ss =>
          if (1 <=? m) && (m <=? 12) && (1 <=? d) && (d <=? 31)
             && (hh <? 24) && (mm <? 60) && (ss <? 60)
          then Some ((days_from_civil y m d * 86400
                      + hh * 3600 + mm * 60 + ss) * second)
          else None
      | _, _, _, _, _, _ => None
      end
  | _ => None
  end.

Definition digit_char (d : Z) : ascii := ascii_of_nat (48 + Z.to_nat d).

Definition two_digits (n : Z) : string :=
  String (digit_char (n / 10 mod 10)) (String (digit_char (n mod 10)) EmptyString).

Definition four_digits (n : Z) : string :=
  (two_digits (n / 100) ++ two_digits (n mod 100))%string.

Definition date_of_days (z0 : Z) : Z * Z * Z :=
  let z := z0 + 719468 in
  let era := z / 146097 in
  let doe := z - era * 146097 in
  let yoe := (doe - doe / 1460 + doe / 36524 - doe / 146096) / 365 in
  let doy := doe - (365 * yoe + yoe / 4 - yoe / 100) in
  let mp := (5 * doy + 2) / 153 in
  let d := doy - (153 * mp + 2) / 5 + 1 in
  let m := if mp <? 10 then mp + 3 else mp - 9 in
  let y := yoe + era * 400 + (if m <=? 2 then 1 else 0) in
  (y, m, d).

Definition iso_date (t : Z) : string :=
  let '(y, m, d) := date_of_days (t / second / 86400) in
  (four_digits y ++ "-" ++ two_digits m ++ "-" ++ two_digits d)%string.

Definition iso_format (t : Z) : string :=
  let s := t / second mod 86400 in
  (iso_date t ++ " " ++ two_digits (s / 3600) ++ ":"
   ++ two_digits (s / 60 mod 60) ++ ":" ++ two_digits (s mod 60))%string.

Definition minute_parse (s : string) : option Z :=
  match list_ascii_of_string s with
  | [y1; y2; y3; y4; "-"; m1; m2; "-"; d1; d2; " "; h1; h2; ":"; n1; n2]%char =>
      match number [y1; y2; y3; y4] 0, number [m1; m2] 0, number [d1; d2] 0,
            number [h1; h2] 0, number [n1; n2] 0 with
      | Some y, Some m, Some d, Some hh, Some mm =>
          if (1 <=? m) && (m <=? 12) && (1 <=? d) && (d <=? 31)
             && (hh <? 24) && (mm <? 60)
          then Some ((days_from_civil y m d * 86400 + hh * 3600 + mm * 60)
                     * second)
          else None
      | _, _, _, _, _ => None
      end
  | _ => None
  end.

Definition seconds_format : string := "%Y-%m-%dT%H:%M:%S".
Definition minutes_format : string := "%Y-%m-%d %H:%M".

Fixpoint sample_infer (ts : list string) : option string :=
  match ts with
  | [] => None
  | EmptyString :: ts' => sample_infer ts'
  | s :: _ =>
      match iso_parse s, minute_parse s with
      | Some _, _ => Some seconds_format
      | None, Some _ => Some minutes_format
      | None, None => None
      end
  end.

Definition stamp_of (o : option Z) : parsed :=
  match o with
  | Some t => Stamp t
  | None => Bad
  end.

Definition sample_parse (f : option string) (s : string) : parsed :=
  match s with
  | EmptyString => Missing
  | String _ _ =>
      match f with
      | Some fmt =>
          if String.eqb fmt seconds_format then stamp_of (iso_parse s)
          else if String.eqb fmt minutes_format then stamp_of (minute_parse s)
          else Bad
      | None =>
          match iso_parse s with
          | Some t => Stamp t
          | None => stamp_of (minute_parse s)
          end
      end
  end.

Definition sample_re : pattern_rule := fun _ => None.

(** The page under the sample parameters, run on 2024-03-06. *)
Definition sample_run : list record -> string -> nat -> list widget * ending :=
  run sample_infer sample_parse sample_re iso_format iso_format "20240306".

(** ** What the claims speak about *)

(** The verdict of the spec: a feedback passes when it begins with the two
    characters O and colon. *)
Definition verdict_passes (fb : string) : bool :=
  match fb with
  | String "O" (String ":" _) => true
  | _ => false
  end.

Definition feedback (i : nat) (s : Submission) : string :=
  match i with
  | 1%nat => feedback_1 s
  | 2%nat => feedback_2 s
  | _ => feedback_3 s
  end.

Definition feedback_column (i : nat) : string :=
  match i with
  | 1%nat => "feedback_1"
  | 2%nat => "feedback_2"
  | _ => "feedback_3"
  end.

(** Number of submissions whose feedback for question [i] passes. *)
Definition pass_count (i : nat) (subs : list Submission) : Z :=
  Z.of_nat (List.length (filter (fun s => verdict_passes (feedback i s)) subs)).

(** Count divided by total, times 100, in binary64 arithmetic. *)
Definition percent (count total : Z) : PrimFloat.float :=
  PrimFloat.mul (PrimFloat.div (to_float count) (to_float total)) (to_float 100).

(** [q] occurs in [s] as a plain substring. *)
Definition substring_of (q s : string) : Prop :=
  exists pre post, s = (pre ++ q ++ post)%string.

(** Plain substring search. *)
Fixpoint contains_plain (q s : string) : bool :=
  startswith q s
  || match s with
     | EmptyString => false
     | String _ s' => contains_plain q s'
     end.

(** A text without any special character of regular expressions. *)
Fixpoint literal (q : string) : bool :=
  match q with
  | EmptyString => true
  | String c q' => negb (Ascii.eqb c dot) && negb (special c) && literal q'
  end.

Definition total (series : list (Z * Z)) : Z :=
  fold_right Z.add 0 (map snd series).

(** The record the detail view shows for a searched view and a choice in the
    select box: the first record of the view that bears the chosen student
    id. *)
Definition detail_record (view : list Submission) (choice : nat)
  : option Submission :=
  match view with
  | [] => None
  | d :: _ =>
      find (fun s => String.eqb (student_id s) (student_id (nth choice view d)))
           view
  end.

(** A line break as a text. *)
Definition nl : string := String newline EmptyString.

(** The record has the key, whatever its value. *)
Definition has_key (k : string) (r : record) : bool :=
  match lookup k r with
  | Some _ => true
  | None => false
  end.

(** The outcome is not a division by zero. *)
Definition no_zero_division {A : Type} (o : outcome A) : Prop :=
  o <> Raise ZeroDivisionError.

(** A computation that never ends in ZeroDivisionError. *)
Definition safe {A : Type} (m : M A) : Prop :=
  forall log, no_zero_division (snd (m log)).

(** The fetched batch of submissions with the texts of their timestamps. *)
Definition fetched_all (items : list (Submission * string)) : list record :=
  map (fun it => fetched (fst it) (snd it)) items.

(** What the detail view adds to the page for a searched canonical view:
    nothing when the view is empty, else the select box and the eight boxes
    of the record shown. *)
Definition detail_widgets (strftime : Z -> string) (view : list Submission)
           (choice : nat) : list widget :=
  match detail_record view choice with
  | None => []
  | Some shown =>
      [Selectbox (map (fun s => Str (student_id s)) view);
       AnswerBox 1 (Str (answer_1 shown));
       FeedbackBox 1 (Str (feedback_1 shown));
       AnswerBox 2 (Str (answer_2 shown));
       FeedbackBox 2 (Str (feedback_2 shown));
       AnswerBox 3 (Str (answer_3 shown));
       FeedbackBox 3 (Str (feedback_3 shown));
       SubmittedAt (strftime (created_at shown));
       ModelUsed (Str (model shown))]
  end.

(** [xs] can be obtained from [ys] by dropping elements, the order kept. *)
Inductive subseq {A : Type} : list A -> list A -> Prop :=
| subseq_nil : subseq [] []
| subseq_keep (x : A) (xs ys : list A) : subseq xs ys -> subseq (x :: xs) (x :: ys)
| subseq_drop (y : A) (xs ys : list A) : subseq xs ys -> subseq xs (y :: ys).

(** What [to_datetime] makes of one cell under the format [f] of its
    column, when the text is not refused. *)
Definition parsed_cell (parse_text : text_parser) (f : option string)
           (c : cell) : cell :=
  match c with
  | Str s => match parse_text f s with
             | Stamp t => Ts t
             | Missing => NA
             | Bad => c
             end
  | _ => c
  end.

(** A widget other than the two of the [except] handler. *)
Definition quiet (w : widget) : Prop :=
  match w with
  | ErrorBox _ => False
  | InfoHint => False
  | _ => True
  end.

(** A computation that adds only quiet widgets and never stops the script. *)
Definition orderly {A : Type} (m : M A) : Prop :=
  forall log, Forall quiet log ->
              Forall quiet (fst (m log)) /\ snd (m log) <> Halt.

(** A computation that only appends to the log. *)
Definition grows {A : Type} (m : M A) : Prop :=
  forall log, exists rest, fst (m log) = log ++ rest.

(** ** Lemmas on strings *)

Lemma startswith_spec (p s : string) :
  startswith p s = true <-> exists rest, s = (p ++ rest)%string.
Proof.
  revert s; induction p as [|a p IH]; intros s; simpl.
  - split; [intros _; now exists s | reflexivity].
  - destruct s as [|b s].
    + split; [discriminate | intros [r H]; discriminate].
    + rewrite andb_true_iff, Ascii.eqb_eq, IH. split.
      * intros [-> [r ->]]. now exists r.
      * intros [r H]. injection H as -> ->. split; [reflexivity | now exists r].
Qed.

Lemma verdict_passes_startswith (fb : string) :
  verdict_passes fb = startswith "O:" fb.
Proof.
  destruct fb as [|a [|b fb]]; simpl.
  - reflexivity.
  - destruct (Ascii.eqb "O" a) eqn:E; [|destruct a as [[] [] [] [] [] [] [] []]; try reflexivity; discriminate].
    apply Ascii.eqb_eq in E; subst a. reflexivity.
  - destruct (Ascii.eqb "O" a) eqn:E.
    + apply Ascii.eqb_eq in E; subst a. simpl.
      destruct (Ascii.eqb ":" b) eqn:F.
      * apply Ascii.eqb_eq in F; subst b. reflexivity.
      * destruct b as [[] [] [] [] [] [] [] []]; try reflexivity; discriminate.
    + destruct a as [[] [] [] [] [] [] [] []]; try reflexivity; discriminate.
Qed.

Lemma contains_plain_spec (q s : string) :
  contains_plain q s = true <-> substring_of q s.
Proof.
  unfold substring_of. induction s as [|c s IH]; simpl.
  - rewrite orb_false_r, startswith_spec. split.
    + intros [r H]. exists EmptyString, r. exact H.
    + intros [pre [post H]]. destruct pre; [now exists post | discriminate].
  - rewrite orb_true_iff, startswith_spec, IH. split.
    + intros [[r H] | [pre [post H]]].
      * exists EmptyString, r. exact H.
      * exists (String c pre), post. simpl. now rewrite H.
    + intros [pre [post H]]. destruct pre as [|d pre]; simpl in H.
      * left. now exists post.
      * right. injection H as _ H. now exists pre, post.
Qed.

(** ** Lemmas on canonical frames *)

Lemma getitem_frame (subs : list Submission) (k : string) (i : nat)
      (f : Submission -> cell) :
  index_of k submission_columns = Some i ->
  (forall s, nth i (submission_row s) NA = f s) ->
  getitem (frame subs) k = Val (map f subs).
Proof.
  intros Hi Hf. unfold getitem, frame; simpl columns; rewrite Hi.
  simpl rows. rewrite map_map. f_equal. apply map_ext. exact Hf.
Qed.

Lemma getitem_feedback (subs : list Submission) (i : nat) :
  getitem (frame subs) (feedback_column i)
  = Val (map (fun s => Str (feedback i s)) subs).
Proof.
  destruct i as [|[|[|i]]]; simpl feedback_column.
  - now apply getitem_frame with (i := 6%nat).
  - now apply getitem_frame with (i := 4%nat).
  - now apply getitem_frame with (i := 5%nat).
  - now apply getitem_frame with (i := 6%nat).
Qed.

Lemma getitem_student_id (subs : list Submission) :
  getitem (frame subs) "student_id" = Val (map (fun s => Str (student_id s)) subs).
Proof. now apply getitem_frame with (i := 0%nat). Qed.

Lemma getitem_created_at (subs : list Submission) :
  getitem (frame subs) "created_at" = Val (map (fun s => Ts (created_at s)) subs).
Proof. now apply getitem_frame with (i := 8%nat). Qed.

Lemma len_frame (subs : list Submission) :
  len (frame subs) = Z.of_nat (List.length subs).
Proof. unfold len, frame; simpl. now rewrite length_map. Qed.

Lemma sum_startswith (subs : list Submission) (i : nat) :
  sum_bool (str_startswith "O:" (map (fun s => Str (feedback i s)) subs))
  = pass_count i subs.
Proof.
  unfold pass_count, str_startswith. rewrite map_map.
  induction subs as [|s subs IH].
  - reflexivity.
  - cbn [map filter]. rewrite verdict_passes_startswith.
    destruct (startswith "O:" (feedback i s)); cbn [sum_bool List.length].
    + rewrite IH. lia.
    + exact IH.
Qed.

Lemma q_pass_frame (subs : list Submission) (i : nat) :
  q_pass (frame subs) (feedback_column i) = Val (pass_count i subs).
Proof.
  unfold q_pass. rewrite getitem_feedback. simpl and_then.
  now rewrite sum_startswith.
Qed.

Lemma pass_rate_percent (count n : Z) :
  n <> 0 -> pass_rate count n = Val (percent count n).
Proof.
  intros H. unfold pass_rate, truediv.
  destruct (Z.eqb_spec n 0); [contradiction | reflexivity].
Qed.

(** ** Metrics *)

(** C1.  For a non-empty canonical set the pass count of each question is the
    number of submissions whose feedback begins with the two characters O and
    colon, the pass rate is that count divided by the total and multiplied by
    100, and these are the values the metric widgets show.  A lowercase o or
    a missing colon does not pass.  The single record with feedbacks
    O: 정답, X: 오답, O: 정답 gives counts 1, 0, 1 and rates 100.0, 0.0,
    100.0. *)
Theorem pass_counts_and_rates :
  (forall subs : list Submission, subs <> [] ->
     let n := Z.of_nat (List.length subs) in
     (forall i, In i [1; 2; 3]%nat ->
        q_pass (frame subs) (feedback_column i) = Val (pass_count i subs)
        /\ pass_rate (pass_count i subs) (len (frame subs))
           = Val (percent (pass_count i subs) n))
     /\ forall log,
         metrics (frame subs) log
         = (log ++ [MetricTotal n;
                    MetricRate 1 (percent (pass_count 1 subs) n);
                    MetricRate 2 (percent (pass_count 2 subs) n);
                    MetricRate 3 (percent (pass_count 3 subs) n)],
            Val (pass_count 1 subs, pass_count 2 subs, pass_count 3 subs)))
  /\ (forall fb, verdict_passes fb = true
                 <-> exists rest, fb = ("O:" ++ rest)%string)
  /\ verdict_passes "o: 정답" = false
  /\ verdict_passes "O 정답" = false
  /\ (forall sid a1 a2 a3 m t,
        metrics (frame [mkSubmission sid a1 a2 a3 "O: 정답" "X: 오답" "O: 정답" m t]) []
        = ([MetricTotal 1; MetricRate 1 100%float; MetricRate 2 0%float;
            MetricRate 3 100%float],
           Val (1, 0, 1))).
Proof.
  split; [|split; [|split; [|split]]].
  - intros subs Hne n.
    assert (Hn : len (frame subs) = n) by apply len_frame.
    assert (Hpos : n <> 0).
    { subst n. destruct subs; [contradiction | simpl; lia]. }
    split.
    + intros i _. split; [apply q_pass_frame|].
      rewrite Hn. now apply pass_rate_percent.
    + intros log. unfold metrics, bind, emit, lift.
      change "feedback_1" with (feedback_column 1).
      change "feedback_2" with (feedback_column 2).
      change "feedback_3" with (feedback_column 3).
      rewrite !q_pass_frame, Hn, !pass_rate_percent by assumption.
      rewrite <- !app_assoc. reflexivity.
  - intros fb. rewrite verdict_passes_startswith. apply startswith_spec.
  - reflexivity.
  - reflexivity.
  - intros. reflexivity.
Qed.

Lemma pass_counts_and_rates_witness :
  let subs := [mkSubmission "10130" "a" "b" "c" "O: ok" "X: no" "o: no" "m" 0;
               mkSubmission "20210" "a" "b" "c" "O: ok" "O: ok" "O no" "m" 1] in
  subs <> []
  /\ q_pass (frame subs) (feedback_column 2) = Val 1
  /\ pass_rate 1 (len (frame subs)) = Val 50%float.
Proof.
  intros subs.
  assert (Hne : subs <> []) by discriminate.
  split; [exact Hne|].
  exact (proj1 (proj1 pass_counts_and_rates subs Hne) 2%nat
               (or_intror (or_introl eq_refl))).
Defined.

(** ** Hourly series: arithmetic of the bins *)

Lemma hour_pos : 0 < hour.
Proof. reflexivity. Qed.

Lemma floor_hour_bounds (t : Z) : floor_hour t <= t < floor_hour t + hour.
Proof.
  unfold floor_hour.
  pose proof (Z.mul_div_le t hour hour_pos).
  pose proof (Z.mul_succ_div_gt t hour hour_pos). lia.
Qed.

Lemma floor_hour_multiple (q : Z) : floor_hour (q * hour) = q * hour.
Proof.
  unfold floor_hour. rewrite Z.div_mul; [reflexivity|].
  pose proof hour_pos; lia.
Qed.

Lemma floor_hour_unique (q t : Z) :
  q * hour <= t < q * hour + hour -> floor_hour t = q * hour.
Proof.
  intros H. unfold floor_hour. f_equal. symmetry.
  apply Z.div_unique with (r := t - q * hour); pose proof hour_pos; lia.
Qed.

Lemma floor_hour_mono (a b : Z) : a <= b -> floor_hour a <= floor_hour b.
Proof.
  intros H. unfold floor_hour.
  apply Z.mul_le_mono_nonneg_r; [pose proof hour_pos; lia|].
  apply Z.div_le_mono; [apply hour_pos | exact H].
Qed.

Lemma fold_min_spec (l : list Z) (a : Z) :
  In (fold_left Z.min l a) (a :: l)
  /\ forall x, In x (a :: l) -> fold_left Z.min l a <= x.
Proof.
  revert a; induction l as [|b l IH]; intros a; simpl.
  - split; [now left | intros x [<- | []]; lia].
  - destruct (IH (Z.min a b)) as [Hin Hle]. split.
    + destruct Hin as [Hin | Hin]; [|now right; right].
      rewrite <- Hin. destruct (Z.min_spec a b) as [[_ ->] | [_ ->]]; auto.
    + intros x Hx.
      assert (Hm : fold_left Z.min l (Z.min a b) <= Z.min a b)
        by (apply Hle; now left).
      destruct Hx as [<- | [<- | Hx]]; [lia | lia |].
      apply Hle. now right.
Qed.

Lemma fold_max_spec (l : list Z) (a : Z) :
  In (fold_left Z.max l a) (a :: l)
  /\ forall x, In x (a :: l) -> x <= fold_left Z.max l a.
Proof.
  revert a; induction l as [|b l IH]; intros a; simpl.
  - split; [now left | intros x [<- | []]; lia].
  - destruct (IH (Z.max a b)) as [Hin Hle]. split.
    + destruct Hin as [Hin | Hin]; [|now right; right].
      rewrite <- Hin. destruct (Z.max_spec a b) as [[_ ->] | [_ ->]]; auto.
    + intros x Hx.
      assert (Hm : Z.max a b <= fold_left Z.max l (Z.max a b))
        by (apply Hle; now left).
      destruct Hx as [<- | [<- | Hx]]; [lia | lia |].
      apply Hle. now right.
Qed.

Lemma count_in_cons (lo hi t : Z) (ts : list Z) :
  count_in lo hi (t :: ts)
  = (if (lo <=? t) && (t <? hi) then 1 else 0) + count_in lo hi ts.
Proof.
  unfold count_in. simpl filter.
  destruct ((lo <=? t) && (t <? hi)); simpl List.length; lia.
Qed.

Lemma count_in_split (lo mid hi : Z) (ts : list Z) :
  lo <= mid <= hi ->
  count_in lo mid ts + count_in mid hi ts = count_in lo hi ts.
Proof.
  intros H. induction ts as [|t ts IH]; [reflexivity|].
  rewrite !count_in_cons, <- IH.
  destruct (Z.leb_spec lo t), (Z.ltb_spec t mid), (Z.leb_spec mid t),
           (Z.ltb_spec t hi); cbn [andb]; lia.
Qed.

Lemma count_in_all (lo hi : Z) (ts : list Z) :
  (forall t, In t ts -> lo <= t < hi) ->
  count_in lo hi ts = Z.of_nat (List.length ts).
Proof.
  intros H. induction ts as [|t ts IH]; [reflexivity|].
  rewrite count_in_cons, IH by (intros; apply H; now right).
  assert (lo <= t < hi) by (apply H; now left).
  destruct (Z.leb_spec lo t), (Z.ltb_spec t hi); cbn [andb List.length]; lia.
Qed.

Lemma count_in_empty (x : Z) (ts : list Z) : count_in x x ts = 0.
Proof.
  induction ts as [|t ts IH]; [reflexivity|].
  rewrite count_in_cons, IH.
  destruct (Z.leb_spec x t), (Z.ltb_spec t x); cbn [andb]; lia.
Qed.

(** The counts of consecutive bins add up to the count of their union. *)
Lemma sum_bins (first : Z) (ts : list Z) (n a : nat) :
  fold_right Z.add 0
    (map (fun k => count_in (first + Z.of_nat k * hour)
                            (first + Z.of_nat k * hour + hour) ts)
         (seq a n))
  = count_in (first + Z.of_nat a * hour) (first + Z.of_nat (a + n) * hour) ts.
Proof.
  revert a; induction n as [|n IH]; intros a.
  - simpl. rewrite Nat.add_0_r. symmetry. apply count_in_empty.
  - cbn [seq map fold_right]. rewrite IH.
    replace (first + Z.of_nat a * hour + hour)
      with (first + Z.of_nat (S a) * hour) by lia.
    replace (S a + n)%nat with (a + S n)%nat by lia.
    apply count_in_split. pose proof hour_pos. nia.
Qed.

(** The bins of a non-empty series, spelled out. *)
Lemma resample_bins (t0 : Z) (ts' : list Z) :
  let lo := fold_left Z.min ts' t0 in
  let hi := fold_left Z.max ts' t0 in
  exists m : nat,
    Z.of_nat m = hi / hour - lo / hour
    /\ resample_H_size (t0 :: ts')
       = map (fun k => (floor_hour lo + Z.of_nat k * hour,
                        count_in (floor_hour lo + Z.of_nat k * hour)
                                 (floor_hour lo + Z.of_nat k * hour + hour)
                                 (t0 :: ts')))
             (seq 0 (S m)).
Proof.
  intros lo hi.
  assert (Hle : lo <= hi).
  { destruct (fold_min_spec ts' t0) as [_ H1].
    destruct (fold_max_spec ts' t0) as [_ H2].
    specialize (H1 t0 (or_introl eq_refl)).
    specialize (H2 t0 (or_introl eq_refl)). subst lo hi. lia. }
  assert (Hq : lo / hour <= hi / hour)
    by (apply Z.div_le_mono; [apply hour_pos | exact Hle]).
  exists (Z.to_nat (hi / hour - lo / hour)). split; [lia|].
  unfold resample_H_size. fold lo hi. unfold floor_hour.
  replace (hi / hour * hour - lo / hour * hour)
    with ((hi / hour - lo / hour) * hour) by lia.
  rewrite Z.div_mul by (pose proof hour_pos; lia). reflexivity.
Qed.

Lemma total_resample (ts : list Z) :
  total (resample_H_size ts) = Z.of_nat (List.length ts).
Proof.
  destruct ts as [|t0 ts']; [reflexivity|].
  destruct (resample_bins t0 ts') as [m [Hm ->]].
  set (lo := fold_left Z.min ts' t0) in *.
  set (hi := fold_left Z.max ts' t0) in *.
  unfold total. rewrite map_map. cbn [snd].
  rewrite (sum_bins (floor_hour lo) (t0 :: ts') (S m) 0).
  apply count_in_all. intros t Ht.
  destruct (fold_min_spec ts' t0) as [_ H1].
  destruct (fold_max_spec ts' t0) as [_ H2].
  specialize (H1 t Ht). specialize (H2 t Ht). fold lo in H1. fold hi in H2.
  pose proof (floor_hour_bounds lo). pose proof (floor_hour_bounds hi).
  assert (floor_hour lo + Z.of_nat (0 + S m) * hour = floor_hour hi + hour).
  { unfold floor_hour. lia. }
  lia.
Qed.

Lemma floor_hour_idempotent (t : Z) : floor_hour (floor_hour t) = floor_hour t.
Proof. unfold floor_hour at 2 3. apply floor_hour_multiple. Qed.

(** Which buckets the series of a non-empty index holds. *)
Lemma resample_member (t0 : Z) (ts' : list Z) (b c : Z) :
  In (b, c) (resample_H_size (t0 :: ts'))
  <-> floor_hour b = b
      /\ floor_hour (fold_left Z.min ts' t0) <= b
         <= floor_hour (fold_left Z.max ts' t0)
      /\ c = count_in b (b + hour) (t0 :: ts').
Proof.
  destruct (resample_bins t0 ts') as [m [Hm ->]].
  set (lo := fold_left Z.min ts' t0) in *.
  set (hi := fold_left Z.max ts' t0) in *.
  pose proof hour_pos as Hh.
  rewrite in_map_iff. split.
  - intros [k [Hk Hin]]. apply in_seq in Hin. injection Hk as <- <-.
    assert (Hb : floor_hour lo + Z.of_nat k * hour
                 = (lo / hour + Z.of_nat k) * hour) by (unfold floor_hour; lia).
    split; [|split; [|reflexivity]].
    + rewrite Hb. apply floor_hour_multiple.
    + unfold floor_hour. nia.
  - intros [Hal [[H1 H2] ->]].
    assert (Hq1 : lo / hour <= b / hour) by (unfold floor_hour in *; nia).
    assert (Hq2 : b / hour <= hi / hour) by (unfold floor_hour in *; nia).
    exists (Z.to_nat (b / hour - lo / hour)).
    assert (Hb : floor_hour lo + Z.of_nat (Z.to_nat (b / hour - lo / hour)) * hour = b).
    { rewrite Z2Nat.id by lia. unfold floor_hour in *. lia. }
    split.
    + rewrite Hb. reflexivity.
    + apply in_seq. lia.
Qed.

Lemma resample_starts_NoDup (ts : list Z) : NoDup (map fst (resample_H_size ts)).
Proof.
  destruct ts as [|t0 ts']; [constructor|].
  destruct (resample_bins t0 ts') as [m [_ ->]].
  rewrite map_map. cbn [fst].
  apply Finite.Injective_map_NoDup; [|apply seq_NoDup].
  intros a b H. pose proof hour_pos. nia.
Qed.

Lemma timestamps_frame (subs : list Submission) :
  timestamps (map (fun s => Ts (created_at s)) subs) = Some (map created_at subs).
Proof.
  induction subs as [|s subs IH]; [reflexivity|].
  cbn [map timestamps]. now rewrite IH.
Qed.

Lemma df_time_frame (subs : list Submission) :
  df_time (frame subs) = Val (resample_H_size (map created_at subs)).
Proof.
  unfold df_time. rewrite getitem_created_at. cbn [and_then].
  now rewrite timestamps_frame.
Qed.

(** ** Hourly series: the claims *)

(** C4 as stated fails: with submissions at 09:12 and 11:47 the series holds
    the bucket 10:00, in which no submission falls. *)
Lemma sparse_series_counterexample :
  let subs := [mkSubmission "10130" "a" "b" "c" "O: ok" "X: no" "O: ok" "m"
                            1709629920000000000;
               mkSubmission "20210" "a" "b" "c" "O: ok" "X: no" "O: ok" "m"
                            1709639220000000000] in
  exists series,
    df_time (frame subs) = Val series
    /\ ~ (forall b, (exists c, In (b, c) series)
                    <-> (exists s, In s subs /\ floor_hour (created_at s) = b)).
Proof.
  intros subs. eexists. split; [apply df_time_frame|].
  intros H. destruct (proj1 (H 1709632800000000000)) as [s [Hs Hb]].
  - exists 0. vm_compute. right; left; reflexivity.
  - destruct Hs as [<- | [<- | []]]; vm_compute in Hb; discriminate.
Qed.

(** C4, amended.  The series is dense between its ends: a one-hour bucket
    appears exactly when it starts on the hour and lies between the hour of
    the earliest submission and the hour of the latest, both included; its
    count is the number of submissions in that hour, which may be 0. *)
Theorem hourly_series_is_dense (subs : list Submission)
        (earliest latest : Submission) :
  In earliest subs -> In latest subs ->
  (forall s, In s subs ->
             created_at earliest <= created_at s <= created_at latest) ->
  exists series,
    df_time (frame subs) = Val series
    /\ forall b c,
        In (b, c) series
        <-> floor_hour b = b
            /\ floor_hour (created_at earliest) <= b
               <= floor_hour (created_at latest)
            /\ c = count_in b (b + hour) (map created_at subs).
Proof.
  intros He Hl Hall. eexists. split; [apply df_time_frame|].
  intros b c.
  assert (Hin : forall s, In s subs -> In (created_at s) (map created_at subs))
    by (intros; now apply in_map).
  destruct (map created_at subs) as [|t0 ts'] eqn:E;
    [destruct (Hin _ He)|].
  rewrite resample_member.
  destruct (fold_min_spec ts' t0) as [Hmin1 Hmin2].
  destruct (fold_max_spec ts' t0) as [Hmax1 Hmax2].
  assert (Hlo : fold_left Z.min ts' t0 = created_at earliest).
  { rewrite <- E in Hmin1. apply in_map_iff in Hmin1 as [s [Hs1 Hs2]].
    specialize (Hall s Hs2). specialize (Hmin2 _ (Hin _ He)). lia. }
  assert (Hhi : fold_left Z.max ts' t0 = created_at latest).
  { rewrite <- E in Hmax1. apply in_map_iff in Hmax1 as [s [Hs1 Hs2]].
    specialize (Hall s Hs2). specialize (Hmax2 _ (Hin _ Hl)). lia. }
  rewrite Hlo, Hhi. reflexivity.
Qed.

Lemma hourly_series_is_dense_witness :
  let a := mkSubmission "10130" "a" "b" "c" "O: ok" "X: no" "O: ok" "m"
                        1709629920000000000 in
  let z := mkSubmission "20210" "a" "b" "c" "O: ok" "X: no" "O: ok" "m"
                        1709639220000000000 in
  exists series,
    df_time (frame [a; z]) = Val series
    /\ forall b c,
        In (b, c) series
        <-> floor_hour b = b
            /\ floor_hour (created_at a) <= b <= floor_hour (created_at z)
            /\ c = count_in b (b + hour) (map created_at [a; z]).
Proof.
  intros a z.
  apply (hourly_series_is_dense [a; z] a z).
  - left; reflexivity.
  - right; left; reflexivity.
  - intros s [<- | [<- | []]]; simpl; lia.
Defined.

Lemma count_in_hour (b : Z) (ts : list Z) :
  floor_hour b = b ->
  count_in b (b + hour) ts
  = Z.of_nat (List.length (filter (fun t => floor_hour t =? b) ts)).
Proof.
  intros Hal. induction ts as [|t ts IH]; [reflexivity|].
  rewrite count_in_cons, IH. cbn [filter].
  pose proof (floor_hour_bounds t) as Ht.
  destruct (Z.eqb_spec (floor_hour t) b) as [E | E].
  - destruct (Z.leb_spec b t), (Z.ltb_spec t (b + hour));
      cbn [andb List.length]; lia.
  - destruct (Z.leb_spec b t), (Z.ltb_spec t (b + hour));
      cbn [andb List.length]; try lia.
    exfalso. apply E. rewrite <- Hal. unfold floor_hour at 2.
    apply floor_hour_unique. unfold floor_hour in Hal. lia.
Qed.

Lemma filter_map_length {A B} (p : B -> bool) (g : A -> B) (l : list A) :
  List.length (filter p (map g l)) = List.length (filter (fun x => p (g x)) l).
Proof.
  induction l as [|x l IH]; [reflexivity|].
  cbn [map filter]. destruct (p (g x)); cbn [List.length]; now rewrite IH.
Qed.

(** C5.  The counts of the buckets add up to the number of submissions, no
    bucket start occurs twice, the count of a bucket is the number of
    submissions whose hour-truncated [created_at] is its start, and every
    submission lies in exactly one bucket of the series: the one that starts
    at its hour. *)
Theorem bucket_counts_sum_to_size (subs : list Submission) :
  exists series,
    df_time (frame subs) = Val series
    /\ total series = Z.of_nat (List.length subs)
    /\ NoDup (map fst series)
    /\ (forall b c,
          In (b, c) series ->
          c = Z.of_nat (List.length
                          (filter (fun s => floor_hour (created_at s) =? b)
                                  subs)))
    /\ forall s, In s subs ->
         In (floor_hour (created_at s)) (map fst series)
         /\ forall b, In b (map fst series) ->
                      b <= created_at s < b + hour ->
                      b = floor_hour (created_at s).
Proof.
  eexists. split; [apply df_time_frame|].
  split; [|split; [|split]].
  - rewrite total_resample. now rewrite length_map.
  - apply resample_starts_NoDup.
  - intros b c Hbc.
    rewrite <- (filter_map_length (fun t => floor_hour t =? b) created_at subs).
    destruct (map created_at subs) as [|t0 ts']; [destruct Hbc|].
    apply resample_member in Hbc as [Hal [_ ->]].
    now apply count_in_hour.
  - intros s Hs.
    assert (Hin : In (created_at s) (map created_at subs)) by now apply in_map.
    destruct (map created_at subs) as [|t0 ts'] eqn:E; [destruct Hin|].
    destruct (fold_min_spec ts' t0) as [_ Hmin].
    destruct (fold_max_spec ts' t0) as [_ Hmax].
    specialize (Hmin _ Hin). specialize (Hmax _ Hin). split.
    + apply in_map_iff.
      exists (floor_hour (created_at s),
              count_in (floor_hour (created_at s))
                       (floor_hour (created_at s) + hour) (t0 :: ts')).
      split; [reflexivity|]. apply resample_member.
      split; [apply floor_hour_idempotent|].
      split; [|reflexivity].
      split; now apply floor_hour_mono.
    + intros b Hb Hrange. apply in_map_iff in Hb as [[b' c] [Hfst Hb]].
      cbn in Hfst; subst b'. apply resample_member in Hb as [Hal _].
      symmetry. transitivity (b / hour * hour); [|exact Hal].
      apply floor_hour_unique. unfold floor_hour in Hal. lia.
Qed.

Lemma bucket_counts_sum_to_size_witness :
  let a := mkSubmission "10130" "a" "b" "c" "O: ok" "X: no" "O: ok" "m"
                        1709629920000000000 in
  let z := mkSubmission "20210" "a" "b" "c" "O: ok" "X: no" "O: ok" "m"
                        1709632020000000000 in
  In z [a; z]
  /\ exists series,
      df_time (frame [a; z]) = Val series
      /\ total series = 2
      /\ NoDup (map fst series)
      /\ (forall b c,
            In (b, c) series ->
            c = Z.of_nat (List.length
                            (filter (fun s => floor_hour (created_at s) =? b)
                                    [a; z])))
      /\ forall s, In s [a; z] ->
           In (floor_hour (created_at s)) (map fst series)
           /\ forall b, In b (map fst series) ->
                        b <= created_at s < b + hour ->
                        b = floor_hour (created_at s).
Proof.
  intros a z. split; [right; left; reflexivity|].
  exact (bucket_counts_sum_to_size [a; z]).
Defined.

(** ** Search: lemmas *)

Lemma re_compile_literal (q : string) :
  literal q = true ->
  re_compile q = Some (map Lit (list_ascii_of_string q)).
Proof.
  induction q as [|c q IH]; [reflexivity|]. simpl.
  intros H. apply andb_true_iff in H as [H Hq].
  apply andb_true_iff in H as [Hd Hs].
  apply negb_true_iff in Hd, Hs. rewrite Hd, Hs, IH by assumption. reflexivity.
Qed.

Lemma match_here_literal (q s : string) :
  match_here (map Lit (list_ascii_of_string q)) s = startswith q s.
Proof.
  revert s; induction q as [|c q IH]; intros s; [reflexivity|].
  destruct s as [|d s]; [reflexivity|]. simpl. now rewrite IH.
Qed.

Lemma re_search_literal (q s : string) :
  re_search (map Lit (list_ascii_of_string q)) s = contains_plain q s.
Proof.
  induction s as [|d s IH]; simpl; rewrite match_here_literal; [reflexivity|].
  now rewrite IH.
Qed.

Lemma boolean_index_filter {A} (f : A -> bool) (g : A -> list cell) (xs : list A) :
  boolean_index (map (fun x => Some (f x)) xs) (map g xs)
  = Val (map g (filter f xs)).
Proof.
  induction xs as [|x xs IH]; [reflexivity|].
  cbn [map boolean_index filter]. rewrite IH.
  destruct (f x); reflexivity.
Qed.

(** A query without special characters selects by plain substring. *)
Lemma display_df_literal (re_beyond : pattern_rule) (subs : list Submission)
      (q : string) :
  literal q = true -> q <> EmptyString ->
  display_df re_beyond (frame subs) q
  = Val (frame (filter (fun s => contains_plain q (student_id s)) subs)).
Proof.
  intros Hl Hne. unfold display_df.
  destruct q as [|c q]; [contradiction|].
  rewrite getitem_student_id. cbn [and_then]. unfold str_contains.
  rewrite re_compile_literal by exact Hl. cbn [and_then].
  rewrite map_map. cbn [rows frame].
  rewrite (map_ext _ (fun s => Some (contains_plain (String c q) (student_id s))))
    by (intros; now rewrite re_search_literal).
  rewrite (boolean_index_filter
             (fun s => contains_plain (String c q) (student_id s))).
  reflexivity.
Qed.

Lemma row_frame (l : list Submission) (sid : string) :
  row (frame l) (Str sid)
  = match find (fun s => String.eqb (student_id s) sid) l with
    | Some s => Val (submission_row s)
    | None => Raise IndexError
    end.
Proof.
  unfold row. rewrite getitem_student_id. cbn [and_then].
  rewrite map_map. cbn [cell_eqb rows frame].
  rewrite (boolean_index_filter (fun s => String.eqb (student_id s) sid)).
  cbn [and_then]. induction l as [|s l IH]; [reflexivity|].
  cbn [filter find]. destruct (String.eqb (student_id s) sid); [reflexivity|].
  exact IH.
Qed.

(** ** Search: the claims *)

(** C3.  The search step hands the query to a regular-expression search: on
    the query 1.1 it keeps the submission of student 10130, although 1.1 does
    not occur in 10130. *)
Theorem search_reads_query_as_pattern (re_beyond : pattern_rule) :
  let s := mkSubmission "10130" "a" "b" "c" "O: ok" "X: no" "O: ok" "m" 0 in
  display_df re_beyond (frame [s]) "1.1" = Val (frame [s])
  /\ ~ substring_of "1.1" (student_id s).
Proof.
  intros s. split; [reflexivity|].
  intros H. apply contains_plain_spec in H. discriminate H.
Qed.

(** C6.  With the empty query the searched view is the frame itself, for
    every frame and so for every canonical set; the step raises nothing. *)
Theorem empty_query_is_identity (re_beyond : pattern_rule) :
  (forall df : DataFrame, display_df re_beyond df EmptyString = Val df)
  /\ (forall subs : list Submission,
        display_df re_beyond (frame subs) EmptyString = Val (frame subs)).
Proof. split; intros; reflexivity. Qed.

Lemma startswith_refl (q : string) : startswith q q = true.
Proof.
  induction q as [|c q IH]; [reflexivity|].
  simpl. now rewrite Ascii.eqb_refl.
Qed.

Lemma contains_plain_refl (q : string) : contains_plain q q = true.
Proof. destruct q; simpl; [reflexivity|]. now rewrite Ascii.eqb_refl, startswith_refl. Qed.

Lemma contains_plain_empty (s : string) : contains_plain EmptyString s = true.
Proof. destruct s; reflexivity. Qed.

Lemma display_df_plain (re_beyond : pattern_rule) (subs : list Submission)
      (q : string) :
  literal q = true ->
  display_df re_beyond (frame subs) q
  = Val (frame (filter (fun s => contains_plain q (student_id s)) subs)).
Proof.
  intros Hl. destruct q as [|c q].
  - cbn [display_df]. do 2 f_equal. induction subs as [|s subs IH]; [reflexivity|].
    cbn [filter]. rewrite contains_plain_empty. now f_equal.
  - apply display_df_literal; [exact Hl | discriminate].
Qed.

Lemma find_exists {A} (f : A -> bool) (l : list A) (x : A) :
  In x l -> f x = true -> exists y, find f l = Some y.
Proof.
  intros Hin Hf. destruct (find f l) as [y|] eqn:E; [now exists y|].
  rewrite (find_none f l E x Hin) in Hf. discriminate.
Qed.

Lemma selected_frame (view : list Submission) (d : Submission) (choice : nat) :
  hd_error view = Some d ->
  selected (map (fun s => Str (student_id s)) view) choice
  = Str (student_id (nth choice view d)).
Proof.
  intros H. destruct view as [|d' view]; [discriminate|].
  injection H as ->. unfold selected. cbn [hd map].
  change (Str (student_id d) :: map (fun s => Str (student_id s)) view)
    with (map (fun s => Str (student_id s)) (d :: view)).
  apply (map_nth (fun s => Str (student_id s))).
Qed.

(** What the detail view emits for a non-empty canonical view. *)
Lemma detail_frame (strftime : Z -> string) (view : list Submission)
      (choice : nat) (shown : Submission) (log : list widget) :
  detail_record view choice = Some shown ->
  detail strftime (frame view) choice log
  = (log ++ [Selectbox (map (fun s => Str (student_id s)) view);
             AnswerBox 1 (Str (answer_1 shown));
             FeedbackBox 1 (Str (feedback_1 shown));
             AnswerBox 2 (Str (answer_2 shown));
             FeedbackBox 2 (Str (feedback_2 shown));
             AnswerBox 3 (Str (answer_3 shown));
             FeedbackBox 3 (Str (feedback_3 shown));
             SubmittedAt (strftime (created_at shown));
             ModelUsed (Str (model shown))],
     Val tt).
Proof.
  intros H. destruct view as [|d view']; [discriminate|].
  unfold detail_record in H.
  unfold detail, bind, emit, lift.
  rewrite getitem_student_id.
  rewrite (selected_frame (d :: view') d choice eq_refl), row_frame, H.
  cbn. rewrite <- !app_assoc. reflexivity.
Qed.

(** C7 as stated fails: with two submissions of student 10130 the detail
    view shows the first one whichever option is chosen; the answers of the
    second never appear. *)
Lemma duplicate_detail_counterexample :
  let data :=
    [fetched (mkSubmission "10130" "first answer" "b" "c" "O: ok" "X: no"
                           "O: ok" "m" 0) "2024-03-05T09:12:00";
     fetched (mkSubmission "10130" "second answer" "b" "c" "O: ok" "X: no"
                           "O: ok" "m" 0) "2024-03-05T09:47:00"] in
  (snd (sample_run data "10130" 0) = Completed
   /\ In (Selectbox [Str "10130"; Str "10130"]) (fst (sample_run data "10130" 0))
   /\ In (AnswerBox 1 (Str "first answer")) (fst (sample_run data "10130" 0))
   /\ ~ In (AnswerBox 1 (Str "second answer")) (fst (sample_run data "10130" 0)))
  /\ (snd (sample_run data "10130" 1) = Completed
      /\ In (AnswerBox 1 (Str "first answer")) (fst (sample_run data "10130" 1))
      /\ ~ In (AnswerBox 1 (Str "second answer"))
              (fst (sample_run data "10130" 1))).
Proof.
  intros data. vm_compute.
  repeat split; auto 30;
    intros H; repeat (destruct H as [H | H]; [discriminate H|]); exact H.
Qed.

(** C7, amended.  Searching a student id that has no special character
    returns every submission whose id contains it, so every submission
    bearing that id is in the searched view and in the select box; the detail
    view shows one record only, the first of the view that bears the chosen
    id. *)
Theorem duplicates_in_search_and_detail (re_beyond : pattern_rule)
        (strftime : Z -> string)
        (subs : list Submission) (dup : Submission) (choice : nat) :
  In dup subs ->
  literal (student_id dup) = true ->
  let view := filter (fun s => contains_plain (student_id dup) (student_id s))
                     subs in
  display_df re_beyond (frame subs) (student_id dup) = Val (frame view)
  /\ (forall s, In s subs -> student_id s = student_id dup -> In s view)
  /\ exists shown,
       detail_record view choice = Some shown
       /\ forall log,
           search_and_detail re_beyond strftime (frame subs) (student_id dup) choice log
           = (log ++ [Divider; Subheader 5; TextInput;
                      Selectbox (map (fun s => Str (student_id s)) view);
                      AnswerBox 1 (Str (answer_1 shown));
                      FeedbackBox 1 (Str (feedback_1 shown));
                      AnswerBox 2 (Str (answer_2 shown));
                      FeedbackBox 2 (Str (feedback_2 shown));
                      AnswerBox 3 (Str (answer_3 shown));
                      FeedbackBox 3 (Str (feedback_3 shown));
                      SubmittedAt (strftime (created_at shown));
                      ModelUsed (Str (model shown))],
               Val tt).
Proof.
  intros Hin Hlit view.
  assert (Hview : forall s, In s subs -> student_id s = student_id dup ->
                            In s view).
  { intros s Hs Heq. apply filter_In. split; [exact Hs|].
    rewrite Heq. apply contains_plain_refl. }
  assert (Hdup : In dup view) by now apply Hview.
  split; [now apply display_df_plain|]. split; [exact Hview|].
  destruct view as [|d view'] eqn:E; [destruct Hdup|].
  assert (Hsel : In (nth choice (d :: view') d) (d :: view')).
  { destruct (nth_in_or_default choice (d :: view') d) as [H | ->];
      [exact H | now left]. }
  destruct (find_exists
              (fun s => String.eqb (student_id s)
                                   (student_id (nth choice (d :: view') d)))
              (d :: view') _ Hsel (String.eqb_refl _)) as [shown Hshown].
  exists shown. split; [exact Hshown|].
  intros log. unfold search_and_detail, bind, emit, lift.
  rewrite display_df_plain by exact Hlit. fold view. rewrite E.
  cbn [empty frame columns rows submission_columns map].
  change (submission_row d :: map submission_row view')
    with (rows (frame (d :: view'))).
  change (mkDF submission_columns (rows (frame (d :: view'))))
    with (frame (d :: view')).
  rewrite (detail_frame strftime (d :: view') choice shown) by exact Hshown.
  rewrite <- !app_assoc. reflexivity.
Qed.

Lemma duplicates_in_search_and_detail_witness :
  let a := mkSubmission "10130" "first answer" "b" "c" "O: ok" "X: no" "O: ok"
                        "m" 1709629920000000000 in
  let b := mkSubmission "10130" "second answer" "b" "c" "O: ok" "X: no"
                        "O: ok" "m" 1709632020000000000 in
  display_df sample_re (frame [a; b]) "10130" = Val (frame [a; b])
  /\ detail_record [a; b] 1 = Some a.
Proof.
  intros a b.
  destruct (duplicates_in_search_and_detail sample_re iso_format [a; b] b 1
              (or_intror (or_introl eq_refl)) eq_refl) as [H _].
  split; [exact H | reflexivity].
Defined.

(** ** Export *)

Lemma index_created_at : index_of "created_at" submission_columns = Some 8%nat.
Proof. vm_compute. reflexivity. Qed.

Lemma sort_values_frame (subs : list Submission) :
  sort_values_desc (frame subs) "created_at"
  = Val (mkDF submission_columns
              (fold_right (insert_desc 8) [] (map submission_row subs))).
Proof.
  unfold sort_values_desc. cbn [frame columns rows].
  now rewrite index_created_at.
Qed.

(** The table and the download of a canonical set: the download is made from
    the frame itself, whatever was searched, with the rows in the order the
    frame has them. *)
Lemma table_and_export_frame (format_ts : Z -> string) (today : string)
      (subs : list Submission) (log : list widget) :
  exists sorted,
    sort_values_desc (frame subs) "created_at" = Val sorted
    /\ table_and_export format_ts today (frame subs) log
       = (log ++ [Divider; Subheader 6; Table sorted;
                  DownloadButton (csv format_ts (frame subs))
                    ("evaluation_results_" ++ today ++ ".csv")%string],
          Val tt)
    /\ to_csv format_ts (frame subs)
       = (csv_line submission_columns
          ++ String.concat EmptyString
               (map (fun s => csv_line (map (render format_ts) (submission_row s)))
                    subs))%string.
Proof.
  eexists. split; [apply sort_values_frame|]. split.
  - unfold table_and_export, bind, emit, lift.
    rewrite sort_values_frame.
    rewrite <- !app_assoc. reflexivity.
  - unfold to_csv. cbn [frame columns rows]. now rewrite map_map.
Qed.

(** C2.  The download holds the full set, but in fetch order: for a
    submission of 09:12 fetched before one of 11:47 the table shows the later
    one first, while the exported text lists the earlier one first. *)
Theorem export_keeps_fetch_order :
  let a := mkSubmission "10130" "a" "b" "c" "O: ok" "X: no" "O: ok" "m"
                        1709629920000000000 in
  let b := mkSubmission "20210" "d" "e" "f" "X: no" "O: ok" "O: ok" "m"
                        1709639220000000000 in
  let page := sample_run [fetched a "2024-03-05T09:12:00";
                          fetched b "2024-03-05T11:47:00"] EmptyString 0 in
  sort_values_desc (frame [a; b]) "created_at" = Val (frame [b; a])
  /\ csv iso_format (frame [a; b])
     = (bom
        ++ "student_id,answer_1,answer_2,answer_3,feedback_1,feedback_2,feedback_3,model,created_at" ++ nl
        ++ "10130,a,b,c,O: ok,X: no,O: ok,m,2024-03-05 09:12:00" ++ nl
        ++ "20210,d,e,f,X: no,O: ok,O: ok,m,2024-03-05 11:47:00" ++ nl)%string
  /\ snd page = Completed
  /\ In (Table (frame [b; a])) (fst page)
  /\ In (DownloadButton (csv iso_format (frame [a; b]))
                        "evaluation_results_20240306.csv") (fst page).
Proof.
  intros a b page.
  split; [vm_compute; reflexivity|].
  split; [vm_compute; reflexivity|].
  split; [vm_compute; reflexivity|].
  split; vm_compute; auto 40.
Qed.

(** ** No data *)

(** C8.  With no record the page shows the notice that nothing was submitted
    and stops; the run ends as stopped, not as failed, and no metric, chart,
    table or download is produced. *)
Theorem no_data_stops_the_page (infer_format : format_rule) (parse_text : text_parser)
        (re_beyond : pattern_rule) (format_ts strftime : Z -> string) (today search_id : string)
        (choice : nat) :
  run infer_format parse_text re_beyond format_ts strftime today [] search_id choice
  = ([Title; Markdown; InfoNoData], Stopped)
  /\ forall log, load infer_format parse_text [] log = (log ++ [InfoNoData], Halt).
Proof. split; reflexivity. Qed.

(** ** Loading: lemmas on the frame of fetched records *)

Lemma mem_app (k : string) (xs ys : list string) :
  mem k (xs ++ ys) = mem k xs || mem k ys.
Proof.
  induction xs as [|x xs IH]; [reflexivity|].
  simpl. rewrite IH. now rewrite orb_assoc.
Qed.

Lemma mem_add_keys (k : string) (r : record) (acc : list string) :
  mem k (add_keys acc r) = mem k acc || has_key k r.
Proof.
  unfold add_keys, has_key. revert acc.
  induction r as [|[k' v] r IH]; intros acc.
  - simpl. now rewrite orb_false_r.
  - cbn [fold_left fst lookup]. rewrite IH.
    destruct (String.eqb_spec k k') as [-> | Hne].
    + destruct (mem k' acc) eqn:E; [now rewrite E|].
      rewrite mem_app, E. simpl. now rewrite String.eqb_refl.
    + destruct (mem k' acc) eqn:E; [reflexivity|].
      rewrite mem_app. simpl.
      destruct (String.eqb_spec k k'); [contradiction|].
      now rewrite !orb_false_r.
Qed.

Lemma mem_fold_add_keys (k : string) (data : list record) (acc : list string) :
  mem k (fold_left add_keys data acc) = mem k acc || existsb (has_key k) data.
Proof.
  revert acc; induction data as [|r data IH]; intros acc.
  - simpl. now rewrite orb_false_r.
  - cbn [fold_left existsb]. rewrite IH, mem_add_keys. now rewrite orb_assoc.
Qed.

Lemma mem_union_keys (k : string) (data : list record) :
  mem k (union_keys data) = existsb (has_key k) data.
Proof. unfold union_keys. now rewrite mem_fold_add_keys. Qed.

Lemma index_of_mem (k : string) (ks : list string) :
  match index_of k ks with
  | Some i => mem k ks = true /\ forall f : string -> cell, nth i (map f ks) NA = f k
  | None => mem k ks = false
  end.
Proof.
  induction ks as [|k' ks IH]; [reflexivity|].
  simpl. destruct (String.eqb_spec k k') as [-> | Hne].
  - split; [reflexivity | intros; reflexivity].
  - destruct (index_of k ks) as [i|].
    + destruct IH as [Hm Hn]. split; [exact Hm | intros f; apply Hn].
    + exact IH.
Qed.

(** A column that some record carries is read record by record. *)
Lemma getitem_pd_DataFrame (data : list record) (k : string) :
  existsb (has_key k) data = true ->
  getitem (pd_DataFrame data) k = Val (map (fun r => cell_of r k) data).
Proof.
  intros H. unfold getitem, pd_DataFrame. cbn [columns rows].
  pose proof (index_of_mem k (union_keys data)) as Hi.
  destruct (index_of k (union_keys data)) as [i|].
  - destruct Hi as [_ Hn]. rewrite map_map. f_equal.
    apply map_ext. intros r. apply Hn.
  - rewrite mem_union_keys, H in Hi. discriminate.
Qed.

(** A column that no record carries is a KeyError. *)
Lemma getitem_absent (data : list record) (k : string) :
  existsb (has_key k) data = false ->
  getitem (pd_DataFrame data) k = Raise (KeyError k).
Proof.
  intros H. unfold getitem, pd_DataFrame. cbn [columns rows].
  pose proof (index_of_mem k (union_keys data)) as Hi.
  destruct (index_of k (union_keys data)) as [i|]; [|reflexivity].
  destruct Hi as [Hm _]. rewrite mem_union_keys, H in Hm. discriminate.
Qed.

Lemma load_without_created_at (infer_format : format_rule) (parse_text : text_parser)
      (data : list record) :
  data <> [] ->
  (forall r, In r data -> lookup "created_at" r = None) ->
  forall log, load infer_format parse_text data log = (log, Raise (KeyError "created_at")).
Proof.
  intros Hne Hall log.
  assert (Hk : existsb (has_key "created_at") data = false).
  { destruct (existsb (has_key "created_at") data) eqn:E; [|reflexivity].
    apply existsb_exists in E as [r [Hr Hkey]].
    unfold has_key in Hkey. now rewrite (Hall r Hr) in Hkey. }
  destruct data as [|r0 data']; [contradiction|].
  unfold load, bind, lift.
  rewrite (getitem_absent (r0 :: data') "created_at" Hk). reflexivity.
Qed.

(** The conversion of a column under one format: either every text is
    accepted and each cell becomes what its text is read as, or the column
    splits at the first refused text, which the error carries. *)
Lemma convert_cases (parse_text : text_parser) (f : option string)
      (col : list cell) :
  ((forall s, In (Str s) col -> parse_text f s <> Bad)
   /\ convert parse_text f col = Val (map (parsed_cell parse_text f) col))
  \/ (exists before bad after,
        col = before ++ Str bad :: after
        /\ (forall s, In (Str s) before -> parse_text f s <> Bad)
        /\ parse_text f bad = Bad
        /\ convert parse_text f col = Raise (ParserError bad)).
Proof.
  induction col as [|c col IH].
  - left. split; [intros s [] | reflexivity].
  - assert (Hgood : forall x,
               parsed_cell parse_text f c = x ->
               (forall s, c = Str s -> parse_text f s <> Bad) ->
               convert parse_text f (c :: col)
               = and_then (convert parse_text f col) (fun r => Val (x :: r)) ->
               ((forall s, In (Str s) (c :: col) -> parse_text f s <> Bad)
                /\ convert parse_text f (c :: col)
                   = Val (map (parsed_cell parse_text f) (c :: col)))
               \/ (exists before bad after,
                     c :: col = before ++ Str bad :: after
                     /\ (forall s, In (Str s) before -> parse_text f s <> Bad)
                     /\ parse_text f bad = Bad
                     /\ convert parse_text f (c :: col) = Raise (ParserError bad))).
    { intros x Hx Hc Heq. rewrite Heq.
      destruct IH as [[Hall ->] | [before [bad [after [-> [Hb [Hbad ->]]]]]]].
      - left. split; [|cbn [and_then map]; now rewrite Hx].
        intros s [-> | Hs]; [now apply Hc | now apply Hall].
      - right. exists (c :: before), bad, after.
        split; [reflexivity|]. split; [|split; [exact Hbad | reflexivity]].
        intros s [-> | Hs]; [now apply Hc | now apply Hb]. }
    destruct c as [|s|t].
    + apply (Hgood NA); [reflexivity | discriminate | reflexivity].
    + destruct (parse_text f s) as [t| |] eqn:E.
      * apply (Hgood (Ts t)).
        -- cbn. now rewrite E.
        -- intros s' H; injection H as <-. congruence.
        -- cbn [convert]. now rewrite E.
      * apply (Hgood NA).
        -- cbn. now rewrite E.
        -- intros s' H; injection H as <-. congruence.
        -- cbn [convert]. now rewrite E.
      * right. exists [], s, col. split; [reflexivity|].
        split; [intros s' []|]. split; [exact E|].
        cbn [convert]. now rewrite E.
    + apply (Hgood (Ts t)); [reflexivity | discriminate | reflexivity].
Qed.

Lemma convert_first_bad (parse_text : text_parser) (f : option string)
      (before : list cell) (bad : string) (after : list cell) :
  (forall s, In (Str s) before -> parse_text f s <> Bad) ->
  parse_text f bad = Bad ->
  convert parse_text f (before ++ Str bad :: after) = Raise (ParserError bad).
Proof.
  intros Hall Hbad. induction before as [|c before IH].
  - cbn [app convert]. now rewrite Hbad.
  - assert (IH' : convert parse_text f (before ++ Str bad :: after)
                  = Raise (ParserError bad))
      by (apply IH; intros s Hs; apply Hall; now right).
    cbn [app convert]. destruct c as [|s|t]; rewrite ?IH'; try reflexivity.
    destruct (parse_text f s) eqn:E; rewrite ?IH'; try reflexivity.
    exfalso. apply (Hall s); [now left | exact E].
Qed.

Lemma to_datetime_no_zero_division (infer_format : format_rule)
      (parse_text : text_parser) (col : list cell) :
  no_zero_division (to_datetime infer_format parse_text col).
Proof.
  unfold to_datetime.
  destruct (convert_cases parse_text (infer_format (texts col)) col)
    as [[_ ->] | [before [bad [after [_ [_ [_ ->]]]]]]]; discriminate.
Qed.

Lemma to_datetime_not_halt (infer_format : format_rule)
      (parse_text : text_parser) (col : list cell) :
  to_datetime infer_format parse_text col <> Halt.
Proof.
  unfold to_datetime.
  destruct (convert_cases parse_text (infer_format (texts col)) col)
    as [[_ ->] | [before [bad [after [_ [_ [_ ->]]]]]]]; discriminate.
Qed.

Lemma to_datetime_length (infer_format : format_rule)
      (parse_text : text_parser) (col r : list cell) :
  to_datetime infer_format parse_text col = Val r ->
  List.length r = List.length col.
Proof.
  unfold to_datetime.
  destruct (convert_cases parse_text (infer_format (texts col)) col)
    as [[_ ->] | [before [bad [after [_ [_ [_ ->]]]]]]]; [|discriminate].
  intros H; injection H as <-. apply length_map.
Qed.

(** ** Division by the number of submissions *)

Lemma safe_ret {A} (a : A) : safe (ret a).
Proof. intros log; discriminate. Qed.

Lemma safe_emit (w : widget) : safe (emit w).
Proof. intros log; discriminate. Qed.

Lemma safe_stop {A} : safe (@stop A).
Proof. intros log; discriminate. Qed.

Lemma safe_lift {A} (o : outcome A) : no_zero_division o -> safe (lift o).
Proof. intros H log; exact H. Qed.

Lemma safe_bind_post {A B} (P : A -> Prop) (m : M A) (k : A -> M B) :
  (forall log log' a, m log = (log', Val a) -> P a) ->
  safe m -> (forall a, P a -> safe (k a)) -> safe (bind m k).
Proof.
  intros Hpost Hm Hk log. unfold bind.
  specialize (Hm log). specialize (Hpost log).
  destruct (m log) as [log' [a | | e |]]; cbn [snd] in *.
  - apply Hk. now apply (Hpost log').
  - discriminate.
  - intros H. apply Hm. injection H as ->. reflexivity.
  - discriminate.
Qed.

Lemma safe_bind {A B} (m : M A) (k : A -> M B) :
  safe m -> (forall a, safe (k a)) -> safe (bind m k).
Proof.
  intros Hm Hk. apply (safe_bind_post (fun _ => True)); auto.
Qed.

Lemma and_then_no_zero_division {A B} (o : outcome A) (k : A -> outcome B) :
  no_zero_division o -> (forall a, no_zero_division (k a)) ->
  no_zero_division (and_then o k).
Proof.
  intros Ho Hk. destruct o as [a | | e |]; cbn;
    [apply Hk | discriminate | | discriminate].
  intros H. apply Ho. injection H as ->. reflexivity.
Qed.

Lemma getitem_no_zero_division (df : DataFrame) (k : string) :
  no_zero_division (getitem df k).
Proof. unfold getitem. destruct (index_of k (columns df)); discriminate. Qed.

Lemma q_pass_no_zero_division (df : DataFrame) (k : string) :
  no_zero_division (q_pass df k).
Proof.
  apply and_then_no_zero_division;
    [apply getitem_no_zero_division | discriminate].
Qed.

Lemma pass_rate_no_zero_division (count n : Z) :
  n <> 0 -> no_zero_division (pass_rate count n).
Proof. intros H. rewrite pass_rate_percent by exact H. discriminate. Qed.

Lemma df_time_no_zero_division (df : DataFrame) : no_zero_division (df_time df).
Proof.
  apply and_then_no_zero_division; [apply getitem_no_zero_division|].
  intros col. destruct (timestamps col); discriminate.
Qed.

Lemma boolean_index_no_zero_division (mask : list (option bool))
      (rs : list (list cell)) :
  no_zero_division (boolean_index mask rs).
Proof.
  revert rs; induction mask as [|[[|]|] mask IH]; intros [|r rs];
    cbn [boolean_index]; try discriminate.
  - apply and_then_no_zero_division; [apply IH | discriminate].
  - apply IH.
Qed.

Lemma display_df_no_zero_division (re_beyond : pattern_rule) (df : DataFrame)
      (search_id : string) :
  no_zero_division (display_df re_beyond df search_id).
Proof.
  destruct search_id as [|c q]; [discriminate|]. cbn [display_df].
  apply and_then_no_zero_division; [apply getitem_no_zero_division|].
  intros col. apply and_then_no_zero_division.
  - unfold str_contains. destruct (re_compile (String c q)); [discriminate|].
    destruct (re_beyond (String c q)); discriminate.
  - intros mask. apply and_then_no_zero_division;
      [apply boolean_index_no_zero_division | discriminate].
Qed.

Lemma row_no_zero_division (shown : DataFrame) (sel : cell) :
  no_zero_division (row shown sel).
Proof.
  apply and_then_no_zero_division; [apply getitem_no_zero_division|].
  intros ids. apply and_then_no_zero_division;
    [apply boolean_index_no_zero_division|].
  intros [|r rs]; discriminate.
Qed.

Lemma row_get_no_zero_division (cols : list string) (r : list cell) (k : string) :
  no_zero_division (row_get cols r k).
Proof. unfold row_get. destruct (index_of k cols); discriminate. Qed.

Lemma sort_values_no_zero_division (df : DataFrame) (k : string) :
  no_zero_division (sort_values_desc df k).
Proof. unfold sort_values_desc. destruct (index_of k (columns df)); discriminate. Qed.

(** One step of a safety proof for a sequence of statements. *)
Ltac safe_step :=
  first [ apply safe_emit | apply safe_ret | apply safe_stop
        | apply safe_lift;
          first [ apply getitem_no_zero_division
                | apply q_pass_no_zero_division
                | apply df_time_no_zero_division
                | apply display_df_no_zero_division
                | apply row_no_zero_division
                | apply row_get_no_zero_division
                | apply sort_values_no_zero_division
                | apply to_datetime_no_zero_division
                | discriminate ]
        | apply safe_bind; [|intros ?] ].

Lemma getitem_length (df : DataFrame) (k : string) (col : list cell) :
  getitem df k = Val col -> List.length col = List.length (rows df).
Proof.
  unfold getitem. destruct (index_of k (columns df)); [|discriminate].
  intros H; injection H as <-. apply length_map.
Qed.

Lemma zip_rows_length (f : cell -> list cell -> list cell) (col : list cell)
      (rs : list (list cell)) :
  List.length col = List.length rs ->
  List.length (zip_rows f col rs) = List.length rs.
Proof.
  revert rs; induction col as [|c col IH]; intros [|r rs] H;
    try discriminate; [reflexivity|].
  simpl. f_equal. apply IH. now injection H.
Qed.

Lemma setitem_length (df : DataFrame) (k : string) (col : list cell) :
  List.length col = List.length (rows df) ->
  List.length (rows (setitem df k col)) = List.length (rows df).
Proof.
  intros H. unfold setitem.
  destruct (index_of k (columns df)); cbn [rows]; now apply zip_rows_length.
Qed.

(** The frame that [load] hands on has one row per fetched record, and there
    is at least one. *)
Lemma load_len (infer_format : format_rule)
      (parse_text : text_parser) (data : list record)
      (log log' : list widget) (df : DataFrame) :
  load infer_format parse_text data log = (log', Val df) ->
  len df = Z.of_nat (List.length data) /\ 0 < len df.
Proof.
  intros H. destruct data as [|r0 data']; [discriminate H|].
  unfold load, bind, lift, ret in H.
  destruct (getitem (pd_DataFrame (r0 :: data')) "created_at") as [col| | |] eqn:Eg;
    try discriminate H.
  destruct (to_datetime infer_format parse_text col) as [parsed| | |] eqn:Et;
    try discriminate H.
  injection H as _ <-.
  apply getitem_length in Eg. apply to_datetime_length in Et.
  assert (Hl : len (setitem (pd_DataFrame (r0 :: data')) "created_at" parsed)
               = Z.of_nat (List.length (r0 :: data'))).
  { unfold len. rewrite setitem_length by congruence.
    unfold pd_DataFrame. cbn [rows]. now rewrite length_map. }
  split; [exact Hl|]. rewrite Hl. simpl List.length. lia.
Qed.

Lemma safe_load (infer_format : format_rule)
      (parse_text : text_parser) (data : list record) :
  safe (load infer_format parse_text data).
Proof.
  destruct data as [|r0 data']; unfold load; repeat safe_step.
Qed.

Lemma safe_metrics (df : DataFrame) : 0 < len df -> safe (metrics df).
Proof.
  intros H. assert (Hn : len df <> 0) by lia.
  unfold metrics.
  repeat first [ apply safe_lift; apply pass_rate_no_zero_division; exact Hn
               | safe_step ].
Qed.

Lemma safe_charts (df : DataFrame) (passed : Z * Z * Z) : safe (charts df passed).
Proof. destruct passed as [[q1 q2] q3]. unfold charts. repeat safe_step. Qed.

Lemma safe_detail (strftime : Z -> string) (shown : DataFrame) (choice : nat) :
  safe (detail strftime shown choice).
Proof.
  unfold detail. repeat safe_step.
  match goal with |- safe (match ?c with _ => _ end) => destruct c end;
    repeat safe_step.
Qed.

Lemma safe_search_and_detail (re_beyond : pattern_rule) (strftime : Z -> string) (df : DataFrame)
      (search_id : string) (choice : nat) :
  safe (search_and_detail re_beyond strftime df search_id choice).
Proof.
  unfold search_and_detail. repeat safe_step.
  match goal with |- safe (if ?b then _ else _) => destruct b end;
    [apply safe_ret | apply safe_detail].
Qed.

Lemma safe_table_and_export (format_ts : Z -> string) (today : string)
      (df : DataFrame) :
  safe (table_and_export format_ts today df).
Proof. unfold table_and_export. repeat safe_step. Qed.

Lemma safe_body (infer_format : format_rule)
      (parse_text : text_parser) (re_beyond : pattern_rule)
      (format_ts strftime : Z -> string)
      (today : string) (data : list record) (search_id : string) (choice : nat) :
  safe (body infer_format parse_text re_beyond format_ts strftime today data search_id choice).
Proof.
  unfold body.
  apply (safe_bind_post (fun df => 0 < len df)).
  - intros log log' df H. now apply (load_len infer_format parse_text data log log').
  - apply safe_load.
  - intros df Hdf. apply safe_bind; [now apply safe_metrics|].
    intros passed. apply safe_bind; [apply safe_charts|]. intros _.
    apply safe_bind; [apply safe_search_and_detail|]. intros _.
    apply safe_table_and_export.
Qed.

(** C10.  No run of the page ends in a division by zero.  A pass-rate metric
    is shown only when at least one record was fetched, and the frame the
    metrics are computed from has a positive number of rows, so each rate is
    the quotient the script writes. *)
Theorem rates_never_divide_by_zero
        (infer_format : format_rule) (parse_text : text_parser)
        (re_beyond : pattern_rule) (format_ts strftime : Z -> string)
        (today : string) (data : list record) (search_id : string)
        (choice : nat) :
  snd (run infer_format parse_text re_beyond format_ts strftime today
      data search_id choice)
  <> Failed ZeroDivisionError
  /\ (forall i r,
        In (MetricRate i r)
           (fst (run infer_format parse_text re_beyond format_ts strftime today
      data search_id choice)) ->
        data <> [])
  /\ (forall log log' df,
        load infer_format parse_text data log = (log', Val df) ->
        0 < len df
        /\ forall count,
            pass_rate count (len df) = Val (percent count (len df))).
Proof.
  split; [|split].
  - unfold run.
    pose proof (safe_body infer_format parse_text re_beyond format_ts strftime today data search_id
                          choice [Title; Markdown]) as Hs.
    destruct (body infer_format parse_text re_beyond format_ts strftime today data search_id choice
                   [Title; Markdown]) as [log [u | | e |]];
      cbn [snd] in *; try discriminate.
    intros H. apply Hs. injection H as ->. reflexivity.
  - intros i r H Hd. subst data.
    change (In (MetricRate i r) [Title; Markdown; InfoNoData]) in H.
    repeat (destruct H as [H | H]; [discriminate H|]). exact H.
  - intros log log' df H.
    destruct (load_len infer_format parse_text data log log' df H) as [_ Hpos].
    split; [exact Hpos|]. intros count. apply pass_rate_percent. lia.
Qed.

Lemma rates_never_divide_by_zero_witness :
  let data := [fetched (mkSubmission "10130" "a" "b" "c" "O: ok" "X: no"
                                     "O: ok" "m" 0) "2024-03-05T09:12:00"] in
  In (MetricRate 1 100%float) (fst (sample_run data EmptyString 0))
  /\ data <> []
  /\ snd (sample_run data EmptyString 0) <> Failed ZeroDivisionError.
Proof.
  intros data.
  assert (Hin : In (MetricRate 1 100%float) (fst (sample_run data EmptyString 0)))
    by (vm_compute; auto 10).
  pose proof (rates_never_divide_by_zero sample_infer sample_parse sample_re
                iso_format iso_format
                "20240306" data EmptyString 0) as [Hnz [Hne _]].
  split; [exact Hin|]. split; [exact (Hne 1%nat _ Hin) | exact Hnz].
Defined.
(** ** Malformed batches *)

Lemma cell_of_text (r : record) (k s : string) :
  cell_of r k = Str s <-> lookup k r = Some (Some s).
Proof.
  unfold cell_of. destruct (lookup k r) as [[x|]|]; split; intros H;
    try discriminate H; [now injection H as -> | now injection H as ->].
Qed.

Lemma index_of_same (k k0 : string) (ks : list string) (i : nat) :
  index_of k ks = Some i -> index_of k0 ks = Some i -> k = k0.
Proof.
  revert i; induction ks as [|x ks IH]; intros i H H0; [discriminate H|].
  cbn [index_of] in H, H0.
  destruct (String.eqb_spec k x) as [-> | Hk], (String.eqb_spec k0 x) as [-> | Hk0].
  - reflexivity.
  - injection H as <-. destruct (index_of k0 ks); discriminate H0.
  - injection H0 as <-. destruct (index_of k ks); discriminate H.
  - destruct (index_of k ks) as [j|]; [|discriminate H].
    destruct (index_of k0 ks) as [j0|]; [|discriminate H0].
    injection H as <-. injection H0 as H0. apply (IH j); [reflexivity|].
    now rewrite H0.
Qed.

Lemma nth_set_nth_other (i i0 : nat) (c : cell) (r : list cell) :
  i <> i0 -> nth i (set_nth i0 c r) NA = nth i r NA.
Proof.
  revert i i0; induction r as [|x r IH]; intros i i0 Hne;
    [destruct i0; reflexivity|].
  destruct i0 as [|i0], i as [|i]; cbn [set_nth nth]; try reflexivity;
    [contradiction | apply IH; congruence].
Qed.

(** Replacing one column leaves every other column as it was. *)
Lemma getitem_setitem_other (df : DataFrame) (k0 k : string) (col : list cell)
      (i0 : nat) :
  index_of k0 (columns df) = Some i0 ->
  List.length col = List.length (rows df) ->
  k <> k0 ->
  getitem (setitem df k0 col) k = getitem df k.
Proof.
  intros Hi0 Hlen Hne. unfold getitem, setitem. rewrite Hi0. cbn [columns rows].
  destruct (index_of k (columns df)) as [i|] eqn:Hi; [|reflexivity].
  assert (Hii : i <> i0).
  { intros ->. apply Hne. now apply (index_of_same k k0 (columns df) i0). }
  f_equal. revert Hlen. generalize (rows df). clear - Hii.
  induction col as [|c col IH]; intros [|r rs] Hlen; try discriminate Hlen;
    [reflexivity|].
  cbn [zip_rows map]. rewrite nth_set_nth_other by exact Hii.
  f_equal. apply IH. now injection Hlen.
Qed.

(** What [load] does with a non-empty batch in which some record carries
    [created_at]: the column is converted, and the outcome of the conversion
    decides. *)
Lemma load_converts (infer_format : format_rule) (parse_text : text_parser)
      (data : list record) (log : list widget) :
  existsb (has_key "created_at") data = true ->
  load infer_format parse_text data log
  = (log,
     and_then (to_datetime infer_format parse_text
                 (map (fun r => cell_of r "created_at") data))
              (fun converted =>
                 Val (setitem (pd_DataFrame data) "created_at" converted))).
Proof.
  intros Hk. destruct data as [|r0 data']; [discriminate Hk|].
  unfold load, bind, lift, ret.
  rewrite (getitem_pd_DataFrame (r0 :: data') "created_at" Hk).
  destruct (to_datetime infer_format parse_text
              (map (fun r => cell_of r "created_at") (r0 :: data')));
    reflexivity.
Qed.

(** C9 as stated fails: a record that lacks the field model does not fail
    the batch; the page completes with its metrics and shows no error. *)
Lemma missing_field_counterexample :
  let whole := fetched (mkSubmission "10130" "a" "b" "c" "O: ok" "X: no"
                                     "O: ok" "m" 0) "2024-03-05T09:12:00" in
  let partial := [("student_id", Some "20210"); ("answer_1", Some "d");
                  ("answer_2", Some "e"); ("answer_3", Some "f");
                  ("feedback_1", Some "X: no"); ("feedback_2", Some "O: ok");
                  ("feedback_3", Some "O: ok");
                  ("created_at", Some "2024-03-05T09:47:00")] in
  let page := sample_run [whole; partial] EmptyString 0 in
  lookup "model" partial = None
  /\ snd page = Completed
  /\ In (MetricTotal 2) (fst page)
  /\ In (MetricRate 1 50%float) (fst page)
  /\ ~ (exists e, In (ErrorBox e) (fst page)).
Proof.
  intros whole partial page.
  split; [reflexivity|]. split; [vm_compute; reflexivity|].
  split; [vm_compute; auto 40|]. split; [vm_compute; auto 40|].
  intros [e H]. vm_compute in H.
  repeat (destruct H as [H | H]; [discriminate H|]). exact H.
Qed.

(** C9, amended.  With [f] the format inferred for the [created_at] column:
    when some record carries a [created_at] text that is refused under [f],
    the batch fails as a whole; the page shows only the error, which carries
    the first such text in fetch order, and the hint, and no metric, chart,
    table or download.  A non-empty batch in which no record carries
    [created_at] fails in the same way with the error naming that field.  In
    every other case the load step succeeds, with one row per record: a
    record that lacks another field has a missing value there and does not
    make the load fail. *)
Theorem unparseable_timestamp_fails_the_batch
        (infer_format : format_rule) (parse_text : text_parser)
        (re_beyond : pattern_rule) (format_ts strftime : Z -> string)
        (today : string) (data : list record) (search_id : string)
        (choice : nat) :
  let f := infer_format (texts (map (fun r => cell_of r "created_at") data)) in
  (forall before r after bad,
      data = before ++ r :: after ->
      lookup "created_at" r = Some (Some bad) ->
      parse_text f bad = Bad ->
      (forall r' s, In r' before -> lookup "created_at" r' = Some (Some s) ->
                    parse_text f s <> Bad) ->
      run infer_format parse_text re_beyond format_ts strftime today data
          search_id choice
      = ([Title; Markdown; ErrorBox (ParserError bad); InfoHint],
         Failed (ParserError bad)))
  /\ (data <> [] ->
      (forall r, In r data -> lookup "created_at" r = None) ->
      run infer_format parse_text re_beyond format_ts strftime today data
          search_id choice
      = ([Title; Markdown; ErrorBox (KeyError "created_at"); InfoHint],
         Failed (KeyError "created_at")))
  /\ ((exists r, In r data /\ lookup "created_at" r <> None) ->
      (forall r s, In r data -> lookup "created_at" r = Some (Some s) ->
                   parse_text f s <> Bad) ->
      exists df,
        (forall log, load infer_format parse_text data log = (log, Val df))
        /\ len df = Z.of_nat (List.length data)
        /\ forall k, k <> "created_at" ->
                     (exists r, In r data /\ lookup k r <> None) ->
                     getitem df k
                     = Val (map (fun r => match lookup k r with
                                          | Some (Some s) => Str s
                                          | _ => NA
                                          end) data)).
Proof.
  intros f.
  assert (Hkey : forall k, (exists r, In r data /\ lookup k r <> None) ->
                           existsb (has_key k) data = true).
  { intros k [r [Hr Hk]]. apply existsb_exists. exists r. split; [exact Hr|].
    unfold has_key. destruct (lookup k r); [reflexivity | contradiction]. }
  split; [|split].
  - intros before r after bad Hdata Hl Hbad Hbefore.
    assert (Hk : existsb (has_key "created_at") data = true).
    { apply Hkey. exists r. split; [|rewrite Hl; discriminate].
      rewrite Hdata. apply in_or_app. right. now left. }
    unfold run, body, bind. rewrite (load_converts _ _ _ _ Hk).
    unfold to_datetime. fold f.
    assert (Hcol : map (fun r => cell_of r "created_at") data
                   = map (fun r => cell_of r "created_at") before
                     ++ Str bad :: map (fun r => cell_of r "created_at") after).
    { rewrite Hdata, map_app. cbn [map]. do 2 f_equal.
      now apply cell_of_text. }
    rewrite Hcol. rewrite convert_first_bad; [reflexivity | | exact Hbad].
    intros s Hs. apply in_map_iff in Hs as [r' [Hcell Hr']].
    apply (Hbefore r' s Hr'). now apply cell_of_text.
  - intros Hne Hall. unfold run, body, bind.
    rewrite (load_without_created_at infer_format parse_text data Hne Hall).
    reflexivity.
  - intros Hsome Hgood.
    pose proof (Hkey _ Hsome) as Hk.
    set (column := map (fun r => cell_of r "created_at") data) in *.
    assert (Hconv : to_datetime infer_format parse_text column
                    = Val (map (parsed_cell parse_text f) column)).
    { unfold to_datetime. fold f.
      destruct (convert_cases parse_text f column)
        as [[_ H] | [before [bad [after [Hcol [_ [Hbad _]]]]]]]; [exact H|].
      exfalso.
      assert (Hin : In (Str bad) column)
        by (rewrite Hcol; apply in_or_app; right; now left).
      apply in_map_iff in Hin as [r [Hcell Hr]].
      apply (Hgood r bad Hr); [now apply cell_of_text | exact Hbad]. }
    exists (setitem (pd_DataFrame data) "created_at"
                    (map (parsed_cell parse_text f) column)).
    assert (Hlen : List.length (map (parsed_cell parse_text f) column)
                   = List.length (rows (pd_DataFrame data))).
    { unfold column, pd_DataFrame. cbn [rows]. now rewrite !length_map. }
    split; [|split].
    + intros log. rewrite (load_converts _ _ _ _ Hk). fold column.
      now rewrite Hconv.
    + unfold len. rewrite setitem_length by exact Hlen.
      unfold pd_DataFrame. cbn [rows]. now rewrite length_map.
    + intros k Hne Hcarried.
      pose proof (index_of_mem "created_at" (union_keys data)) as Hi.
      destruct (index_of "created_at" (union_keys data)) as [i0|] eqn:Ei;
        [|rewrite mem_union_keys, Hk in Hi; discriminate Hi].
      rewrite (getitem_setitem_other (pd_DataFrame data) "created_at" k _ i0
                 Ei Hlen Hne).
      rewrite (getitem_pd_DataFrame data k (Hkey k Hcarried)). reflexivity.
Qed.

Lemma unparseable_timestamp_fails_the_batch_witness :
  let good := fetched (mkSubmission "10130" "a" "b" "c" "O: ok" "X: no"
                                    "O: ok" "m" 0) "2024-03-05T09:12:00" in
  let bad := fetched (mkSubmission "20210" "d" "e" "f" "X: no" "O: ok"
                                   "O: ok" "m" 0) "2024-03-05 09:47" in
  let worse := fetched (mkSubmission "30310" "g" "h" "i" "X: no" "O: ok"
                                     "O: ok" "m" 0) "yesterday" in
  sample_parse None "2024-03-05 09:47" = Stamp 1709632020000000000
  /\ sample_run [good; bad; worse] EmptyString 0
     = ([Title; Markdown; ErrorBox (ParserError "2024-03-05 09:47"); InfoHint],
        Failed (ParserError "2024-03-05 09:47")).
Proof.
  intros good bad worse. split; [reflexivity|].
  apply (proj1 (unparseable_timestamp_fails_the_batch
                  sample_infer sample_parse sample_re iso_format iso_format
                  "20240306" [good; bad; worse] EmptyString 0)
               [good] bad [worse] "2024-03-05 09:47").
  - reflexivity.
  - reflexivity.
  - reflexivity.
  - intros r' s [<- | []] H. injection H as <-. discriminate.
Defined.

(** ** Canonical sets are what [load] produces *)

Lemma add_keys_fetched (s : Submission) (text : string) :
  add_keys [] (fetched s text) = submission_columns
  /\ add_keys submission_columns (fetched s text) = submission_columns.
Proof. split; vm_compute; reflexivity. Qed.

Lemma union_keys_fetched (items : list (Submission * string)) :
  items <> [] -> union_keys (fetched_all items) = submission_columns.
Proof.
  intros Hne. destruct items as [|[s t] items]; [contradiction|].
  unfold union_keys, fetched_all. cbn [map fold_left fst snd].
  rewrite (proj1 (add_keys_fetched s t)).
  induction items as [|[s' t'] items IH]; [reflexivity|].
  cbn [map fold_left fst snd]. rewrite (proj2 (add_keys_fetched s' t')).
  apply IH. discriminate.
Qed.

Lemma cells_fetched (s : Submission) (text : string) :
  map (cell_of (fetched s text)) submission_columns
  = [Str (student_id s); Str (answer_1 s); Str (answer_2 s); Str (answer_3 s);
     Str (feedback_1 s); Str (feedback_2 s); Str (feedback_3 s); Str (model s);
     Str text].
Proof. vm_compute. reflexivity. Qed.

Lemma load_canonical (infer_format : format_rule) (parse_text : text_parser)
      (items : list (Submission * string)) (log : list widget) :
  items <> [] ->
  (forall s text, In (s, text) items ->
                  parse_text (infer_format (map snd items)) text
                  = Stamp (created_at s)) ->
  load infer_format parse_text (fetched_all items) log
  = (log, Val (frame (map fst items))).
Proof.
  intros Hne Hparse.
  assert (Hdf : pd_DataFrame (fetched_all items)
                = mkDF submission_columns
                       (map (fun it => map (cell_of (fetched (fst it) (snd it)))
                                           submission_columns) items)).
  { unfold pd_DataFrame. rewrite union_keys_fetched by exact Hne.
    unfold fetched_all. now rewrite map_map. }
  assert (Hload : load infer_format parse_text (fetched_all items) log
                  = (created <- lift (getitem (pd_DataFrame (fetched_all items))
                                              "created_at") ;;
                     parsed <- lift (to_datetime infer_format parse_text created) ;;
                     ret (setitem (pd_DataFrame (fetched_all items))
                                  "created_at" parsed)) log).
  { destruct items as [|it items]; [contradiction | reflexivity]. }
  rewrite Hload, Hdf. clear Hload Hdf Hne.
  unfold bind, lift, ret, getitem, setitem. cbn [columns rows].
  rewrite index_created_at. rewrite map_map.
  assert (Hcells : map (fun it => nth 8 (map (cell_of (fetched (fst it) (snd it)))
                                             submission_columns) NA) items
                   = map (fun it => Str (snd it)) items).
  { apply map_ext. intros [s t]. cbn [fst snd]. now rewrite cells_fetched. }
  rewrite Hcells. clear Hcells.
  assert (Htexts : texts (map (fun it : Submission * string => Str (snd it)) items)
                   = map snd items).
  { clear Hparse. induction items as [|it items IH]; [reflexivity|].
    cbn [map texts]. now rewrite IH. }
  unfold to_datetime. rewrite Htexts. clear Htexts.
  set (f := infer_format (map snd items)) in *.
  assert (Hcol : convert parse_text f
                   (map (fun it : Submission * string => Str (snd it)) items)
                 = Val (map (fun it => Ts (created_at (fst it))) items)).
  { clearbody f. induction items as [|[s t] items IH]; [reflexivity|].
    cbn [map fst snd convert].
    rewrite (Hparse s t) by now left.
    rewrite IH by (intros; apply Hparse; now right). reflexivity. }
  rewrite Hcol. do 2 f_equal. unfold frame. f_equal.
  clear Hcol Hparse. induction items as [|[s t] items IH]; [reflexivity|].
  cbn [map fst snd zip_rows]. rewrite cells_fetched, IH. reflexivity.
Qed.

(** ** Further properties: counts *)

Lemma sum_bool_range (bs : list (option bool)) :
  0 <= sum_bool bs <= Z.of_nat (List.length bs).
Proof.
  induction bs as [|[[|]|] bs IH]; cbn [sum_bool List.length]; lia.
Qed.

Lemma q_pass_range (df : DataFrame) (k : string) (n : Z) :
  q_pass df k = Val n -> 0 <= n <= len df.
Proof.
  unfold q_pass. destruct (getitem df k) as [col| | |] eqn:E; try discriminate.
  cbn [and_then]. intros H; injection H as <-.
  apply getitem_length in E. unfold len. rewrite <- E.
  pose proof (sum_bool_range (str_startswith "O:" col)) as Hr.
  assert (Hl : List.length (str_startswith "O:" col) = List.length col)
    by apply length_map.
  now rewrite Hl in Hr.
Qed.

(** X1.  Whatever the frame holds, each pass count the metrics step returns
    lies between 0 and the number of rows, so the pass bar and the fail bar
    of every question lie in that range as well. *)
Theorem pass_and_fail_counts_in_range (df : DataFrame) (log log' : list widget)
        (q1 q2 q3 : Z) :
  metrics df log = (log', Val (q1, q2, q3)) ->
  Forall (fun q => 0 <= q <= len df /\ 0 <= len df - q <= len df) [q1; q2; q3].
Proof.
  intros H. unfold metrics, bind, emit, lift, ret in H.
  destruct (q_pass df "feedback_1") as [a1| | |] eqn:E1; try discriminate H.
  destruct (q_pass df "feedback_2") as [a2| | |] eqn:E2; try discriminate H.
  destruct (q_pass df "feedback_3") as [a3| | |] eqn:E3; try discriminate H.
  destruct (pass_rate a1 (len df)); try discriminate H.
  destruct (pass_rate a2 (len df)); try discriminate H.
  destruct (pass_rate a3 (len df)); try discriminate H.
  injection H as _ <- <- <-.
  apply q_pass_range in E1, E2, E3.
  repeat constructor; lia.
Qed.

Lemma pass_and_fail_counts_in_range_witness :
  let df := frame [mkSubmission "10130" "a" "b" "c" "O: ok" "X: no" "O: ok" "m" 0;
                   mkSubmission "20210" "a" "b" "c" "O: ok" "X: no" "o: no" "m" 1] in
  metrics df [] = ([MetricTotal 2; MetricRate 1 100%float; MetricRate 2 0%float;
                    MetricRate 3 50%float], Val (2, 0, 1))
  /\ Forall (fun q => 0 <= q <= len df /\ 0 <= len df - q <= len df) [2; 0; 1].
Proof.
  intros df.
  assert (H : metrics df [] = ([MetricTotal 2; MetricRate 1 100%float;
                                MetricRate 2 0%float; MetricRate 3 50%float],
                               Val (2, 0, 1))) by (vm_compute; reflexivity).
  split; [exact H|].
  exact (pass_and_fail_counts_in_range df [] _ 2 0 1 H).
Defined.

(** ** Further properties: the searched view *)

Lemma subseq_nil_l {A} (ys : list A) : subseq [] ys.
Proof. induction ys; constructor; assumption. Qed.

Lemma subseq_refl {A} (ys : list A) : subseq ys ys.
Proof. induction ys; constructor; assumption. Qed.

Lemma boolean_index_subseq (mask : list (option bool)) (rs kept : list (list cell)) :
  boolean_index mask rs = Val kept -> subseq kept rs.
Proof.
  revert rs kept; induction mask as [|m mask IH]; intros rs kept H.
  - destruct rs; injection H as <-; apply subseq_nil_l.
  - destruct rs as [|r rs].
    + destruct m as [[|]|]; injection H as <-; constructor.
    + destruct m as [[|]|]; cbn [boolean_index] in H.
      * destruct (boolean_index mask rs) as [kept'| | |] eqn:E;
          try discriminate H.
        cbn [and_then] in H. injection H as <-. constructor. now apply IH.
      * constructor. now apply IH.
      * discriminate H.
Qed.

(** X2.  The searched view never invents or reorders anything: it has the
    columns of the frame, and its rows are rows of the frame in their
    original order. *)
Theorem display_df_keeps_rows_in_order (re_beyond : pattern_rule)
        (df shown : DataFrame) (search_id : string) :
  display_df re_beyond df search_id = Val shown ->
  columns shown = columns df /\ subseq (rows shown) (rows df).
Proof.
  destruct search_id as [|c q]; cbn [display_df].
  - intros H; injection H as <-. split; [reflexivity|].
    apply subseq_refl.
  - destruct (getitem df "student_id") as [col| | |]; try discriminate.
    cbn [and_then].
    destruct (str_contains re_beyond (String c q) col) as [mask| | |]; try discriminate.
    cbn [and_then].
    destruct (boolean_index mask (rows df)) as [kept| | |] eqn:E; try discriminate.
    cbn [and_then]. intros H; injection H as <-. cbn [columns rows].
    split; [reflexivity | now apply (boolean_index_subseq mask)].
Qed.

Lemma display_df_keeps_rows_in_order_witness :
  let a := mkSubmission "10130" "a" "b" "c" "O: ok" "X: no" "O: ok" "m" 0 in
  let b := mkSubmission "20210" "a" "b" "c" "O: ok" "X: no" "O: ok" "m" 1 in
  display_df sample_re (frame [a; b; a]) "101" = Val (frame [a; a])
  /\ subseq (rows (frame [a; a])) (rows (frame [a; b; a])).
Proof.
  intros a b.
  assert (H : display_df sample_re (frame [a; b; a]) "101" = Val (frame [a; a]))
    by (vm_compute; reflexivity).
  split; [exact H|].
  exact (proj2 (display_df_keeps_rows_in_order _ _ _ _ H)).
Defined.

Lemma boolean_index_missing (mask : list (option bool)) (rs : list (list cell)) :
  List.length mask = List.length rs -> In None mask ->
  boolean_index mask rs = Raise ValueError.
Proof.
  revert rs; induction mask as [|m mask IH]; intros rs Hl Hin; [destruct Hin|].
  destruct rs as [|r rs]; [discriminate Hl|]. injection Hl as Hl.
  destruct m as [[|]|]; cbn [boolean_index].
  - destruct Hin as [Hin | Hin]; [discriminate|]. now rewrite IH.
  - destruct Hin as [Hin | Hin]; [discriminate|]. now apply IH.
  - reflexivity.
Qed.

(** X3.  A missing student id breaks every search: when some cell of the
    [student_id] column is missing and the query is a non-empty pattern of
    the modelled fragment, the search step raises ValueError. *)
Theorem search_fails_on_missing_student_id (re_beyond : pattern_rule)
        (df : DataFrame) (col : list cell)
        (search_id : string) (p : list atom) :
  getitem df "student_id" = Val col ->
  In NA col ->
  search_id <> EmptyString ->
  re_compile search_id = Some p ->
  display_df re_beyond df search_id = Raise ValueError.
Proof.
  intros Hg Hin Hne Hp. destruct search_id as [|c q]; [contradiction|].
  cbn [display_df]. rewrite Hg. cbn [and_then]. unfold str_contains.
  rewrite Hp. cbn [and_then].
  rewrite boolean_index_missing; [reflexivity | |].
  - rewrite length_map. now apply getitem_length in Hg.
  - apply in_map_iff. exists NA. split; [reflexivity | exact Hin].
Qed.

Lemma search_fails_on_missing_student_id_witness :
  let df := pd_DataFrame [[("student_id", Some "10130")];
                          [("student_id", None)]] in
  display_df sample_re df "101" = Raise ValueError.
Proof.
  intros df.
  apply (search_fails_on_missing_student_id sample_re df [Str "10130"; NA] "101"
           [Lit "1"; Lit "0"; Lit "1"]%char).
  - reflexivity.
  - right; left; reflexivity.
  - discriminate.
  - reflexivity.
Defined.

(** ** Further properties: loading *)

(** X4.  The timestamp conversion is all or nothing, and it reads the column
    under one format: with [f] the format inferred for the column, it
    succeeds exactly when no text of the column is refused under [f], and
    then each text has become what it is read as under [f] while missing
    cells stay missing; otherwise it raises with the first refused text.  A
    text that would be accepted on its own can thus be refused inside a
    column. *)
Theorem to_datetime_all_or_nothing (infer_format : format_rule)
        (parse_text : text_parser) (col : list cell) :
  let f := infer_format (texts col) in
  (forall r,
      to_datetime infer_format parse_text col = Val r
      <-> (forall s, In (Str s) col -> parse_text f s <> Bad)
          /\ r = map (parsed_cell parse_text f) col)
  /\ (forall before bad after,
        col = before ++ Str bad :: after ->
        (forall s, In (Str s) before -> parse_text f s <> Bad) ->
        parse_text f bad = Bad ->
        to_datetime infer_format parse_text col = Raise (ParserError bad)).
Proof.
  intros f. split.
  - intros r. unfold to_datetime. fold f.
    destruct (convert_cases parse_text f col)
      as [[Hall ->] | [before [bad [after [Hcol [_ [Hbad ->]]]]]]].
    + split.
      * intros H; injection H as <-. now split.
      * intros [_ ->]. reflexivity.
    + split; [discriminate|]. intros [Hall _]. exfalso.
      apply (Hall bad); [|exact Hbad].
      rewrite Hcol. apply in_or_app. right. now left.
  - intros before bad after Hcol Hall Hbad. unfold to_datetime. fold f.
    rewrite Hcol. now apply convert_first_bad.
Qed.

Lemma to_datetime_all_or_nothing_witness :
  to_datetime sample_infer sample_parse [Str "2024-03-05 09:12"]
  = Val [Ts 1709629920000000000]
  /\ to_datetime sample_infer sample_parse
       [Str "2024-03-05T09:12:00"; Str "2024-03-05 09:12"]
     = Raise (ParserError "2024-03-05 09:12").
Proof.
  split.
  - apply (proj1 (to_datetime_all_or_nothing sample_infer sample_parse
                    [Str "2024-03-05 09:12"])).
    split; [|reflexivity].
    intros s [H | []]. injection H as <-. discriminate.
  - apply (proj2 (to_datetime_all_or_nothing sample_infer sample_parse
                    [Str "2024-03-05T09:12:00"; Str "2024-03-05 09:12"])
                 [Str "2024-03-05T09:12:00"] "2024-03-05 09:12" []).
    + reflexivity.
    + intros s [H | []]. injection H as <-. discriminate.
    + reflexivity.
Defined.

Lemma mem_In (k : string) (ks : list string) : mem k ks = true <-> In k ks.
Proof.
  induction ks as [|k' ks IH]; simpl; [split; [discriminate | intros []]|].
  rewrite orb_true_iff, String.eqb_eq, IH. split; intros [H | H]; auto.
Qed.

Lemma NoDup_snoc (k : string) (ks : list string) :
  NoDup ks -> ~ In k ks -> NoDup (ks ++ [k]).
Proof.
  induction ks as [|k' ks IH]; intros Hnd Hin; simpl.
  - constructor; [intros [] | constructor].
  - inversion Hnd as [|x l Hx Hl]; subst. constructor.
    + intros H. apply in_app_or in H as [H | [H | []]]; [contradiction|].
      apply Hin. now left.
    + apply IH; [exact Hl|]. intros H. apply Hin. now right.
Qed.

Lemma add_keys_NoDup (r : record) (acc : list string) :
  NoDup acc -> NoDup (add_keys acc r).
Proof.
  unfold add_keys. revert acc; induction r as [|[k v] r IH]; intros acc H;
    [exact H|].
  cbn [fold_left fst]. apply IH.
  destruct (mem k acc) eqn:E; [exact H|].
  apply NoDup_snoc; [exact H|]. intros Hin. apply mem_In in Hin. congruence.
Qed.

Lemma union_keys_NoDup (data : list record) : NoDup (union_keys data).
Proof.
  unfold union_keys.
  assert (H : forall acc, NoDup acc -> NoDup (fold_left add_keys data acc)).
  { induction data as [|r data IH]; intros acc Hacc; [exact Hacc|].
    cbn [fold_left]. apply IH. now apply add_keys_NoDup. }
  apply H. constructor.
Qed.

(** X5.  The frame built from the fetched records is rectangular: every
    label occurs once, the labels are exactly the keys some record carries,
    there is one row per record, and every row has one cell per label. *)
Theorem frame_is_rectangular (data : list record) :
  NoDup (columns (pd_DataFrame data))
  /\ (forall k, In k (columns (pd_DataFrame data))
                <-> exists r, In r data /\ lookup k r <> None)
  /\ List.length (rows (pd_DataFrame data)) = List.length data
  /\ Forall (fun cells => List.length cells
                          = List.length (columns (pd_DataFrame data)))
            (rows (pd_DataFrame data)).
Proof.
  unfold pd_DataFrame. cbn [columns rows].
  split; [apply union_keys_NoDup|]. split; [|split].
  - intros k. rewrite <- mem_In, mem_union_keys, existsb_exists.
    unfold has_key. split; intros [r [Hr Hk]]; exists r; split; try exact Hr.
    + destruct (lookup k r); [discriminate | discriminate Hk].
    + destruct (lookup k r); [reflexivity | contradiction].
  - apply length_map.
  - apply Forall_forall. intros cells H. apply in_map_iff in H as [r [<- _]].
    apply length_map.
Qed.

(** X6.  A batch whose records carry the nine fields as texts, every
    [created_at] text being read as a timestamp under the format inferred
    for the column, loads into the canonical frame: the labels in the order
    of the records' keys, one row per submission in fetch order,
    [created_at] replaced by the timestamp and every other field left as it
    came.  Nothing is shown while loading. *)
Theorem canonical_batch_loads (infer_format : format_rule)
        (parse_text : text_parser)
        (items : list (Submission * string)) (log : list widget) :
  items <> [] ->
  (forall s text, In (s, text) items ->
                  parse_text (infer_format (map snd items)) text
                  = Stamp (created_at s)) ->
  load infer_format parse_text (fetched_all items) log
  = (log, Val (frame (map fst items))).
Proof. apply load_canonical. Qed.

Lemma canonical_batch_loads_witness :
  let a := mkSubmission "10130" "a" "b" "c" "O: ok" "X: no" "O: ok" "m"
                        1709629920000000000 in
  let b := mkSubmission "20210" "d" "e" "f" "X: no" "O: ok" "O: ok" "m"
                        1709639220000000000 in
  load sample_infer sample_parse
       (fetched_all [(a, "2024-03-05T09:12:00"); (b, "2024-03-05T11:47:00")]) []
  = ([], Val (frame [a; b])).
Proof.
  intros a b.
  apply (canonical_batch_loads sample_infer sample_parse
           [(a, "2024-03-05T09:12:00"); (b, "2024-03-05T11:47:00")] []).
  - discriminate.
  - intros s text [H | [H | []]]; injection H as <- <-; reflexivity.
Defined.

(** ** Further properties: the hourly series *)

Lemma bin_starts_ascending (first : Z) (n a : nat) :
  StronglySorted Z.lt
    (map (fun k => first + Z.of_nat k * hour) (seq a n)).
Proof.
  revert a; induction n as [|n IH]; intros a; [constructor|].
  cbn [seq map]. constructor; [apply IH|].
  apply Forall_forall. intros b Hb. apply in_map_iff in Hb as [k [<- Hk]].
  apply in_seq in Hk. pose proof hour_pos. nia.
Qed.

(** X7.  The hourly series of a non-empty canonical set is a run of
    consecutive hours: its bucket starts are the hour of the earliest
    submission plus 0, 1, 2, ... hours, hence strictly ascending, and there
    are as many buckets as hours from the hour of the earliest submission to
    the hour of the latest, both included. *)
Theorem hourly_series_is_consecutive (subs : list Submission)
        (earliest latest : Submission) :
  In earliest subs -> In latest subs ->
  (forall s, In s subs ->
             created_at earliest <= created_at s <= created_at latest) ->
  exists series,
    df_time (frame subs) = Val series
    /\ StronglySorted Z.lt (map fst series)
    /\ map fst series
       = map (fun k => floor_hour (created_at earliest) + Z.of_nat k * hour)
             (seq 0 (List.length series))
    /\ Z.of_nat (List.length series)
       = (floor_hour (created_at latest) - floor_hour (created_at earliest))
         / hour + 1.
Proof.
  intros He Hl Hall. eexists. split; [apply df_time_frame|].
  assert (Hin : forall s, In s subs -> In (created_at s) (map created_at subs))
    by (intros; now apply in_map).
  destruct (map created_at subs) as [|t0 ts'] eqn:E; [destruct (Hin _ He)|].
  destruct (resample_bins t0 ts') as [m [Hm Hbins]].
  destruct (fold_min_spec ts' t0) as [Hmin1 Hmin2].
  destruct (fold_max_spec ts' t0) as [Hmax1 Hmax2].
  assert (Hlo : fold_left Z.min ts' t0 = created_at earliest).
  { rewrite <- E in Hmin1. apply in_map_iff in Hmin1 as [s [Hs1 Hs2]].
    specialize (Hall s Hs2). specialize (Hmin2 _ (Hin _ He)). lia. }
  assert (Hhi : fold_left Z.max ts' t0 = created_at latest).
  { rewrite <- E in Hmax1. apply in_map_iff in Hmax1 as [s [Hs1 Hs2]].
    specialize (Hall s Hs2). specialize (Hmax2 _ (Hin _ Hl)). lia. }
  rewrite Hlo in Hbins. rewrite Hlo, Hhi in Hm.
  assert (Hstarts : map fst (resample_H_size (t0 :: ts'))
                    = map (fun k => floor_hour (created_at earliest)
                                    + Z.of_nat k * hour)
                          (seq 0 (List.length (resample_H_size (t0 :: ts'))))).
  { rewrite Hbins, map_map, length_map, length_seq. reflexivity. }
  split; [rewrite Hstarts; apply bin_starts_ascending|].
  split; [exact Hstarts|].
  rewrite Hbins, length_map, length_seq. unfold floor_hour.
  replace (created_at latest / hour * hour - created_at earliest / hour * hour)
    with ((created_at latest / hour - created_at earliest / hour) * hour) by lia.
  rewrite Z.div_mul by (pose proof hour_pos; lia). lia.
Qed.

Lemma hourly_series_is_consecutive_witness :
  let a := mkSubmission "10130" "a" "b" "c" "O: ok" "X: no" "O: ok" "m"
                        1709629920000000000 in
  let z := mkSubmission "20210" "a" "b" "c" "O: ok" "X: no" "O: ok" "m"
                        1709639220000000000 in
  exists series,
    df_time (frame [a; z]) = Val series
    /\ map fst series
       = map (fun k => floor_hour (created_at a) + Z.of_nat k * hour)
             (seq 0 (List.length series))
    /\ Z.of_nat (List.length series) = 3.
Proof.
  intros a z.
  destruct (hourly_series_is_consecutive [a; z] a z) as [series [Hs [_ [H1 H2]]]].
  - left; reflexivity.
  - right; left; reflexivity.
  - intros s [<- | [<- | []]]; simpl; lia.
  - exists series. split; [exact Hs|]. split; [exact H1|].
    rewrite H2. reflexivity.
Defined.

(** X8.  Submissions that all lie in one hour give a series of exactly one
    bucket: that hour, with the number of submissions as its count. *)
Theorem one_hour_gives_one_bucket (subs : list Submission) (h : Z) :
  subs <> [] ->
  (forall s, In s subs -> floor_hour (created_at s) = h) ->
  df_time (frame subs) = Val [(h, Z.of_nat (List.length subs))].
Proof.
  intros Hne Hall. rewrite df_time_frame. f_equal.
  assert (Hts : forall t, In t (map created_at subs) -> floor_hour t = h).
  { intros t Ht. apply in_map_iff in Ht as [s [<- Hs]]. now apply Hall. }
  rewrite <- (length_map created_at subs).
  destruct (map created_at subs) as [|t0 ts'] eqn:E.
  { destruct subs; [contradiction | discriminate E]. }
  destruct (resample_bins t0 ts') as [m [Hm ->]].
  destruct (fold_min_spec ts' t0) as [Hlo _].
  destruct (fold_max_spec ts' t0) as [Hhi _].
  apply Hts in Hlo, Hhi.
  assert (Hm0 : m = 0%nat).
  { unfold floor_hour in Hlo, Hhi. pose proof hour_pos. nia. }
  subst m. cbn [seq map]. rewrite Hlo.
  replace (h + Z.of_nat 0 * hour) with h by lia.
  do 2 f_equal. apply count_in_all. intros t Ht.
  rewrite <- (Hts t Ht). apply floor_hour_bounds.
Qed.

Lemma one_hour_gives_one_bucket_witness :
  let a := mkSubmission "10130" "a" "b" "c" "O: ok" "X: no" "O: ok" "m"
                        1709629920000000000 in
  let b := mkSubmission "20210" "a" "b" "c" "O: ok" "X: no" "O: ok" "m"
                        1709632020000000000 in
  df_time (frame [a; b]) = Val [(1709629200000000000, 2)].
Proof.
  intros a b.
  apply (one_hour_gives_one_bucket [a; b] 1709629200000000000).
  - discriminate.
  - intros s [<- | [<- | []]]; reflexivity.
Defined.

(** ** Further properties: the table *)

Lemma insert_desc_frame (s : Submission) (l : list Submission) :
  StronglySorted (fun a b => created_at b <= created_at a) l ->
  exists l',
    insert_desc 8 (submission_row s) (map submission_row l)
    = map submission_row l'
    /\ Permutation (s :: l) l'
    /\ StronglySorted (fun a b => created_at b <= created_at a) l'.
Proof.
  induction l as [|a l IH]; intros Hs.
  - exists [s]. split; [reflexivity|]. split; [apply Permutation_refl|].
    constructor; constructor.
  - inversion Hs as [|x xs Hsl Hfa]; subst.
    cbn [map insert_desc].
    change (nth 8 (submission_row s) NA) with (Ts (created_at s)).
    change (nth 8 (submission_row a) NA) with (Ts (created_at a)).
    cbn [before_desc]. destruct (Z.leb_spec (created_at a) (created_at s)) as [Hle | Hlt].
    + exists (s :: a :: l). split; [reflexivity|].
      split; [apply Permutation_refl|]. constructor; [exact Hs|].
      constructor; [exact Hle|].
      apply Forall_forall. intros x Hx.
      rewrite Forall_forall in Hfa. specialize (Hfa x Hx). cbn in Hfa. lia.
    + destruct (IH Hsl) as [l' [Heq [Hperm Hsorted]]].
      exists (a :: l'). split; [cbn [map]; now rewrite Heq|]. split.
      * apply perm_trans with (a :: s :: l); [apply perm_swap|].
        now apply perm_skip.
      * constructor; [exact Hsorted|].
        apply Forall_forall. intros x Hx.
        apply (Permutation_in _ (Permutation_sym Hperm)) in Hx.
        destruct Hx as [<- | Hx]; [lia|].
        rewrite Forall_forall in Hfa. now apply Hfa.
Qed.

(** X9.  The table shows the canonical set itself, reordered: its rows are a
    permutation of the submissions, arranged so that no submission stands
    before a later one (most recent first). *)
Theorem table_is_sorted_permutation (subs : list Submission) :
  exists sorted,
    sort_values_desc (frame subs) "created_at" = Val (frame sorted)
    /\ Permutation subs sorted
    /\ StronglySorted (fun a b => created_at b <= created_at a) sorted.
Proof.
  rewrite sort_values_frame.
  assert (H : exists sorted,
             fold_right (insert_desc 8) [] (map submission_row subs)
             = map submission_row sorted
             /\ Permutation subs sorted
             /\ StronglySorted (fun a b => created_at b <= created_at a) sorted).
  { induction subs as [|s subs IH].
    - exists []. split; [reflexivity|]. split; constructor.
    - destruct IH as [l [Heq [Hperm Hsorted]]].
      destruct (insert_desc_frame s l Hsorted) as [l' [Heq' [Hperm' Hsorted']]].
      exists l'. cbn [map fold_right]. rewrite Heq, Heq'.
      split; [reflexivity|]. split; [|exact Hsorted'].
      apply perm_trans with (s :: l); [now apply perm_skip | exact Hperm']. }
  destruct H as [sorted [Heq H]]. exists sorted. rewrite Heq.
  split; [reflexivity | exact H].
Qed.

(** ** Further properties: the whole page on a canonical set *)

Lemma metrics_frame (subs : list Submission) (log : list widget) :
  subs <> [] ->
  metrics (frame subs) log
  = (log ++ [MetricTotal (Z.of_nat (List.length subs));
             MetricRate 1 (percent (pass_count 1 subs) (Z.of_nat (List.length subs)));
             MetricRate 2 (percent (pass_count 2 subs) (Z.of_nat (List.length subs)));
             MetricRate 3 (percent (pass_count 3 subs) (Z.of_nat (List.length subs)))],
     Val (pass_count 1 subs, pass_count 2 subs, pass_count 3 subs)).
Proof.
  intros Hne.
  assert (Hpos : Z.of_nat (List.length subs) <> 0)
    by (destruct subs; [contradiction | simpl; lia]).
  unfold metrics, bind, emit, lift.
  change "feedback_1" with (feedback_column 1).
  change "feedback_2" with (feedback_column 2).
  change "feedback_3" with (feedback_column 3).
  rewrite !q_pass_frame, len_frame, !pass_rate_percent by assumption.
  rewrite <- !app_assoc. reflexivity.
Qed.

Lemma charts_frame (subs : list Submission) (q1 q2 q3 : Z) (log : list widget) :
  charts (frame subs) (q1, q2, q3) log
  = (log ++ [Divider; Subheader 4;
             BarChart [q1; q2; q3]
                      [Z.of_nat (List.length subs) - q1;
                       Z.of_nat (List.length subs) - q2;
                       Z.of_nat (List.length subs) - q3];
             LineChart (resample_H_size (map created_at subs))],
     Val tt).
Proof.
  unfold charts, bind, emit, lift. rewrite df_time_frame, len_frame.
  rewrite <- !app_assoc. reflexivity.
Qed.

Lemma detail_record_exists (view : list Submission) (choice : nat) :
  view <> [] -> exists shown, detail_record view choice = Some shown.
Proof.
  intros Hne. destruct view as [|d view']; [contradiction|].
  unfold detail_record.
  apply (find_exists _ _ (nth choice (d :: view') d));
    [|apply String.eqb_refl].
  destruct (nth_in_or_default choice (d :: view') d) as [H | ->];
    [exact H | now left].
Qed.

Lemma search_and_detail_frame (re_beyond : pattern_rule)
      (strftime : Z -> string) (subs : list Submission)
      (search_id : string) (choice : nat) (log : list widget) :
  literal search_id = true ->
  search_and_detail re_beyond strftime (frame subs) search_id choice log
  = (log ++ [Divider; Subheader 5; TextInput]
         ++ detail_widgets strftime
              (filter (fun s => contains_plain search_id (student_id s)) subs)
              choice,
     Val tt).
Proof.
  intros Hlit. unfold search_and_detail, bind, emit, lift.
  rewrite display_df_plain by exact Hlit.
  set (view := filter (fun s => contains_plain search_id (student_id s)) subs).
  destruct view as [|d view'] eqn:E.
  - cbn [empty frame columns rows submission_columns map detail_widgets
         detail_record].
    unfold ret. rewrite <- !app_assoc. reflexivity.
  - destruct (detail_record_exists (d :: view') choice) as [shown Hshown];
      [discriminate|].
    unfold detail_widgets. rewrite Hshown.
    cbn [empty frame columns rows submission_columns map].
    change (submission_row d :: map submission_row view')
      with (rows (frame (d :: view'))).
    change (mkDF submission_columns (rows (frame (d :: view'))))
      with (frame (d :: view')).
    rewrite (detail_frame strftime (d :: view') choice shown) by exact Hshown.
    rewrite <- !app_assoc. reflexivity.
Qed.

(** X10.  A batch of well-formed records whose timestamp texts are all read
    as timestamps under the format inferred for the column, searched with a
    text free of special characters, always renders the whole page
    and ends normally: the total and the three rates, both charts, the search
    box with the detail of the searched view, the sorted table and the
    download of the full set. *)
Theorem well_formed_batch_renders_whole_page
        (infer_format : format_rule) (parse_text : text_parser)
        (re_beyond : pattern_rule) (format_ts strftime : Z -> string)
        (today : string) (items : list (Submission * string))
        (search_id : string) (choice : nat) :
  items <> [] ->
  (forall s text, In (s, text) items ->
                  parse_text (infer_format (map snd items)) text
                  = Stamp (created_at s)) ->
  literal search_id = true ->
  let subs := map fst items in
  let n := Z.of_nat (List.length subs) in
  exists sorted,
    sort_values_desc (frame subs) "created_at" = Val sorted
    /\ run infer_format parse_text re_beyond format_ts strftime today (fetched_all items) search_id choice
       = ([Title; Markdown; MetricTotal n;
           MetricRate 1 (percent (pass_count 1 subs) n);
           MetricRate 2 (percent (pass_count 2 subs) n);
           MetricRate 3 (percent (pass_count 3 subs) n);
           Divider; Subheader 4;
           BarChart [pass_count 1 subs; pass_count 2 subs; pass_count 3 subs]
                    [n - pass_count 1 subs; n - pass_count 2 subs;
                     n - pass_count 3 subs];
           LineChart (resample_H_size (map created_at subs));
           Divider; Subheader 5; TextInput]
          ++ detail_widgets strftime
               (filter (fun s => contains_plain search_id (student_id s)) subs)
               choice
          ++ [Divider; Subheader 6; Table sorted;
              DownloadButton (csv format_ts (frame subs))
                ("evaluation_results_" ++ today ++ ".csv")%string],
          Completed).
Proof.
  intros Hne Hparse Hlit subs n.
  assert (Hsubs : subs <> []).
  { subst subs. destruct items; [contradiction | discriminate]. }
  unfold run, body, bind.
  rewrite (load_canonical infer_format parse_text items _ Hne Hparse). fold subs.
  rewrite (metrics_frame subs _ Hsubs), charts_frame.
  rewrite (search_and_detail_frame re_beyond strftime subs search_id choice _ Hlit).
  match goal with
  | |- context [table_and_export format_ts today (frame subs) ?l] =>
      destruct (table_and_export_frame format_ts today subs l)
        as [sorted [Hsorted [Hexport _]]]
  end.
  exists sorted. split; [exact Hsorted|]. rewrite Hexport.
  fold n. rewrite <- !app_assoc. reflexivity.
Qed.

Lemma well_formed_batch_renders_whole_page_witness :
  let a := mkSubmission "10130" "a" "b" "c" "O: ok" "X: no" "O: ok" "m"
                        1709629920000000000 in
  exists log,
    sample_run (fetched_all [(a, "2024-03-05T09:12:00")]) "101" 0
    = (log, Completed).
Proof.
  intros a.
  destruct (well_formed_batch_renders_whole_page
              sample_infer sample_parse sample_re iso_format iso_format "20240306"
              [(a, "2024-03-05T09:12:00")] "101" 0) as [sorted [_ H]].
  - discriminate.
  - intros s text [E | []]; injection E as <- <-; reflexivity.
  - reflexivity.
  - eexists. exact H.
Defined.

(** X11.  When no student id contains the searched text, the search step
    shows the search box and nothing else: no select box and no detail, and
    the script goes on. *)
Theorem no_match_hides_detail (re_beyond : pattern_rule)
        (strftime : Z -> string) (subs : list Submission)
        (search_id : string) (choice : nat) (log : list widget) :
  literal search_id = true ->
  (forall s, In s subs -> ~ substring_of search_id (student_id s)) ->
  search_and_detail re_beyond strftime (frame subs) search_id choice log
  = (log ++ [Divider; Subheader 5; TextInput], Val tt).
Proof.
  intros Hlit Hnone.
  rewrite (search_and_detail_frame re_beyond strftime subs search_id choice log Hlit).
  assert (Hview : filter (fun s => contains_plain search_id (student_id s)) subs
                  = []).
  { induction subs as [|s subs IH]; [reflexivity|]. cbn [filter].
    destruct (contains_plain search_id (student_id s)) eqn:E.
    - exfalso. apply (Hnone s); [now left|]. now apply contains_plain_spec.
    - apply IH. intros x Hx. apply Hnone. now right. }
  rewrite Hview. cbn [detail_widgets detail_record]. now rewrite app_nil_r.
Qed.

Lemma no_match_hides_detail_witness :
  let a := mkSubmission "10130" "a" "b" "c" "O: ok" "X: no" "O: ok" "m" 0 in
  search_and_detail sample_re iso_format (frame [a]) "999" 0 []
  = ([Divider; Subheader 5; TextInput], Val tt).
Proof.
  intros a.
  apply (no_match_hides_detail sample_re iso_format [a] "999" 0 []).
  - reflexivity.
  - intros s [<- | []] H. apply contains_plain_spec in H. discriminate H.
Defined.

(** ** Further properties: the page on any batch *)

(** A successful load shows nothing and keeps the labels of the frame. *)
Lemma load_success (infer_format : format_rule)
      (parse_text : text_parser) (data : list record)
      (log log' : list widget) (df : DataFrame) :
  load infer_format parse_text data log = (log', Val df) ->
  log' = log /\ columns df = union_keys data.
Proof.
  intros H. destruct data as [|r0 data']; [discriminate H|].
  unfold load, bind, lift, ret in H.
  destruct (getitem (pd_DataFrame (r0 :: data')) "created_at") as [col| | |] eqn:Eg;
    try discriminate H.
  destruct (to_datetime infer_format parse_text col) as [parsed| | |]; try discriminate H.
  injection H as <- <-. split; [reflexivity|].
  unfold getitem in Eg. unfold setitem.
  destruct (index_of "created_at" (columns (pd_DataFrame (r0 :: data'))));
    [reflexivity | discriminate Eg].
Qed.

(** X12.  Whenever the page completes, its last widget is the download, and
    the download is the CSV of the loaded frame itself: neither the searched
    text nor the selected student changes what is exported. *)
Theorem download_is_the_loaded_frame
        (infer_format : format_rule) (parse_text : text_parser)
        (re_beyond : pattern_rule) (format_ts strftime : Z -> string)
        (today : string) (data : list record) (search_id : string)
        (choice : nat) (log : list widget) :
  run infer_format parse_text re_beyond format_ts strftime today
      data search_id choice = (log, Completed) ->
  exists df before sorted,
    (forall l, load infer_format parse_text data l = (l, Val df))
    /\ sort_values_desc df "created_at" = Val sorted
    /\ log = before ++ [Divider; Subheader 6; Table sorted;
                        DownloadButton (csv format_ts df)
                          ("evaluation_results_" ++ today ++ ".csv")%string].
Proof.
  intros H. unfold run in H.
  destruct (body infer_format parse_text re_beyond format_ts strftime today data search_id choice
                 [Title; Markdown]) as [l [u | | e |]] eqn:Eb;
    try discriminate H.
  injection H as ->. unfold body, bind in Eb.
  destruct (load infer_format parse_text data [Title; Markdown]) as [l1 [df | | |]] eqn:El;
    try discriminate Eb.
  destruct (metrics df l1) as [l2 [p | | |]]; try discriminate Eb.
  destruct (charts df p l2) as [l3 [[] | | |]]; try discriminate Eb.
  destruct (search_and_detail re_beyond strftime df search_id choice l3)
    as [l4 [[] | | |]]; try discriminate Eb.
  unfold table_and_export, bind, emit, lift in Eb.
  destruct (sort_values_desc df "created_at") as [sorted | | |] eqn:Es;
    try discriminate Eb.
  injection Eb as Hlog _. subst log.
  exists df, l4, sorted. split; [|split; [exact Es|]].
  - intros l. destruct data as [|r0 data']; [discriminate El|].
    unfold load, bind, lift, ret in El |- *.
    destruct (getitem (pd_DataFrame (r0 :: data')) "created_at");
      try discriminate El.
    destruct (to_datetime infer_format parse_text a); try discriminate El.
    injection El as _ <-. reflexivity.
  - rewrite <- !app_assoc. reflexivity.
Qed.

Lemma download_is_the_loaded_frame_witness :
  let a := mkSubmission "10130" "a" "b" "c" "O: ok" "X: no" "O: ok" "m"
                        1709629920000000000 in
  exists df before sorted,
    load sample_infer sample_parse [fetched a "2024-03-05T09:12:00"] [] = ([], Val df)
    /\ fst (sample_run [fetched a "2024-03-05T09:12:00"] "999" 0)
       = before ++ [Divider; Subheader 6; Table sorted;
                    DownloadButton (csv iso_format df)
                                   "evaluation_results_20240306.csv"].
Proof.
  intros a.
  destruct (download_is_the_loaded_frame
              sample_infer sample_parse sample_re iso_format iso_format "20240306"
              [fetched a "2024-03-05T09:12:00"] "999" 0
              (fst (sample_run [fetched a "2024-03-05T09:12:00"] "999" 0)))
    as [df [before [sorted [Hl [_ Hlog]]]]].
  - vm_compute. reflexivity.
  - exists df, before, sorted. split; [apply Hl | exact Hlog].
Defined.

(** X13.  When the frame loads but no record carries [feedback_1], the page
    fails on the first pass count: the total is already shown, then the
    error naming the missing column and the hint, and nothing else. *)
Theorem missing_feedback_column_fails_after_total
        (infer_format : format_rule) (parse_text : text_parser)
        (re_beyond : pattern_rule) (format_ts strftime : Z -> string)
        (today : string) (data : list record) (search_id : string)
        (choice : nat) (df : DataFrame) :
  load infer_format parse_text data [Title; Markdown] = ([Title; Markdown], Val df) ->
  (forall r, In r data -> lookup "feedback_1" r = None) ->
  run infer_format parse_text re_beyond format_ts strftime today
      data search_id choice
  = ([Title; Markdown; MetricTotal (Z.of_nat (List.length data));
      ErrorBox (KeyError "feedback_1"); InfoHint],
     Failed (KeyError "feedback_1")).
Proof.
  intros Hload Hnone.
  destruct (load_success _ _ _ _ _ _ Hload) as [_ Hcols].
  destruct (load_len _ _ _ _ _ _ Hload) as [Hlen _].
  assert (Hq : q_pass df "feedback_1" = Raise (KeyError "feedback_1")).
  { unfold q_pass, getitem. rewrite Hcols.
    pose proof (index_of_mem "feedback_1" (union_keys data)) as Hi.
    destruct (index_of "feedback_1" (union_keys data)); [|reflexivity].
    destruct Hi as [Hm _]. rewrite mem_union_keys in Hm.
    apply existsb_exists in Hm as [r [Hr Hk]].
    unfold has_key in Hk. rewrite (Hnone r Hr) in Hk. discriminate. }
  unfold run, body, bind. rewrite Hload.
  unfold metrics, bind, emit, lift. rewrite Hq, Hlen. reflexivity.
Qed.

Lemma missing_feedback_column_fails_after_total_witness :
  sample_run [[("student_id", Some "10130");
               ("created_at", Some "2024-03-05T09:12:00")]] EmptyString 0
  = ([Title; Markdown; MetricTotal 1; ErrorBox (KeyError "feedback_1"); InfoHint],
     Failed (KeyError "feedback_1")).
Proof.
  apply (missing_feedback_column_fails_after_total
           sample_infer sample_parse sample_re iso_format iso_format "20240306"
           [[("student_id", Some "10130");
             ("created_at", Some "2024-03-05T09:12:00")]] EmptyString 0
           (mkDF ["student_id"; "created_at"]
                 [[Str "10130"; Ts 1709629920000000000]])).
  - vm_compute. reflexivity.
  - intros r [<- | []]. reflexivity.
Defined.

(** ** Further properties: how a run ends *)

Lemma orderly_ret {A} (a : A) : orderly (ret a).
Proof. intros log H. split; [exact H | discriminate]. Qed.

Lemma orderly_emit (w : widget) : quiet w -> orderly (emit w).
Proof.
  intros Hw log H. split; [|discriminate].
  cbn. apply Forall_app. split; [exact H | now constructor].
Qed.

Lemma orderly_lift {A} (o : outcome A) : o <> Halt -> orderly (lift o).
Proof. intros Ho log H. split; [exact H | exact Ho]. Qed.

Lemma orderly_bind {A B} (m : M A) (k : A -> M B) :
  orderly m -> (forall a, orderly (k a)) -> orderly (bind m k).
Proof.
  intros Hm Hk log H. unfold bind. destruct (Hm log H) as [Hq Hh].
  destruct (m log) as [log' [a | | e |]]; cbn [fst snd] in *.
  - now apply Hk.
  - contradiction.
  - split; [exact Hq | discriminate].
  - split; [exact Hq | discriminate].
Qed.

Lemma and_then_not_halt {A B} (o : outcome A) (k : A -> outcome B) :
  o <> Halt -> (forall a, k a <> Halt) -> and_then o k <> Halt.
Proof.
  intros Ho Hk. destruct o as [a | | e |]; cbn;
    [apply Hk | contradiction | discriminate | discriminate].
Qed.

Lemma getitem_not_halt (df : DataFrame) (k : string) : getitem df k <> Halt.
Proof. unfold getitem. destruct (index_of k (columns df)); discriminate. Qed.

Lemma q_pass_not_halt (df : DataFrame) (k : string) : q_pass df k <> Halt.
Proof. apply and_then_not_halt; [apply getitem_not_halt | discriminate]. Qed.

Lemma pass_rate_not_halt (count n : Z) : pass_rate count n <> Halt.
Proof.
  unfold pass_rate, truediv. destruct (n =? 0); cbn; discriminate.
Qed.

Lemma df_time_not_halt (df : DataFrame) : df_time df <> Halt.
Proof.
  apply and_then_not_halt; [apply getitem_not_halt|].
  intros col. destruct (timestamps col); discriminate.
Qed.

Lemma boolean_index_not_halt (mask : list (option bool)) (rs : list (list cell)) :
  boolean_index mask rs <> Halt.
Proof.
  revert rs; induction mask as [|m mask IH]; intros rs; [discriminate|].
  destruct rs as [|r rs]; [destruct m as [[|]|]; discriminate|].
  destruct m as [[|]|]; cbn [boolean_index].
  - apply and_then_not_halt; [apply IH | discriminate].
  - apply IH.
  - discriminate.
Qed.

Lemma display_df_not_halt (re_beyond : pattern_rule) (df : DataFrame)
      (search_id : string) :
  display_df re_beyond df search_id <> Halt.
Proof.
  destruct search_id as [|c q]; [discriminate|]. cbn [display_df].
  apply and_then_not_halt; [apply getitem_not_halt|].
  intros col. apply and_then_not_halt.
  - unfold str_contains. destruct (re_compile (String c q)); [discriminate|].
    destruct (re_beyond (String c q)); discriminate.
  - intros mask. apply and_then_not_halt;
      [apply boolean_index_not_halt | discriminate].
Qed.

Lemma row_not_halt (shown : DataFrame) (sel : cell) : row shown sel <> Halt.
Proof.
  apply and_then_not_halt; [apply getitem_not_halt|].
  intros ids. apply and_then_not_halt; [apply boolean_index_not_halt|].
  intros [|r rs]; discriminate.
Qed.

Lemma row_get_not_halt (cols : list string) (r : list cell) (k : string) :
  row_get cols r k <> Halt.
Proof. unfold row_get. destruct (index_of k cols); discriminate. Qed.

Lemma sort_values_not_halt (df : DataFrame) (k : string) :
  sort_values_desc df k <> Halt.
Proof. unfold sort_values_desc. destruct (index_of k (columns df)); discriminate. Qed.

(** One step of a proof that a sequence of statements is orderly. *)
Ltac orderly_step :=
  first [ apply orderly_emit; exact I | apply orderly_ret
        | apply orderly_lift;
          first [ apply getitem_not_halt
                | apply q_pass_not_halt
                | apply pass_rate_not_halt
                | apply df_time_not_halt
                | apply display_df_not_halt
                | apply row_not_halt
                | apply row_get_not_halt
                | apply sort_values_not_halt
                | apply to_datetime_not_halt
                | discriminate ]
        | apply orderly_bind; [|intros ?] ].

Lemma orderly_body (infer_format : format_rule)
      (parse_text : text_parser) (re_beyond : pattern_rule)
      (format_ts strftime : Z -> string)
      (today : string) (r0 : record) (data' : list record) (search_id : string)
      (choice : nat) :
  orderly (body infer_format parse_text re_beyond format_ts strftime today (r0 :: data') search_id choice).
Proof.
  unfold body, load, metrics, table_and_export, search_and_detail.
  repeat orderly_step.
  - match goal with |- orderly (charts _ ?p) => destruct p as [[q1 q2] q3] end.
    unfold charts. repeat orderly_step.
  - match goal with |- orderly (if ?b then _ else _) => destruct b end;
      [apply orderly_ret|].
    unfold detail. repeat orderly_step.
    match goal with |- orderly (match ?c with _ => _ end) => destruct c end;
      repeat orderly_step.
Qed.

(** X14.  On every run the model describes (every run but those that reach
    the hourly chart with a missing timestamp), the error box and the hint
    appear exactly when the run fails: a failed run ends with the box for its
    exception followed by the hint, after widgets that are neither; a run
    that completes or stops shows no error box at all.  An invalid search
    pattern is such a failure. *)
Theorem error_box_iff_failed
        (infer_format : format_rule) (parse_text : text_parser)
        (re_beyond : pattern_rule) (format_ts strftime : Z -> string)
        (today : string) (data : list record) (search_id : string)
        (choice : nat) :
  let out := run infer_format parse_text re_beyond format_ts strftime today
                 data search_id choice in
  snd out <> Unmodelled ->
  ((exists e, In (ErrorBox e) (fst out)) <-> (exists e, snd out = Failed e))
  /\ forall e, snd out = Failed e ->
               exists before,
                 fst out = before ++ [ErrorBox e; InfoHint]
                 /\ Forall quiet before.
Proof.
  assert (Hq : forall log e, Forall quiet log -> ~ In (ErrorBox e) log).
  { intros log e H Hin. rewrite Forall_forall in H. exact (H _ Hin). }
  destruct data as [|r0 data'].
  - cbn. intros _. split.
    + split; intros [e H]; [|discriminate H].
      destruct H as [H | [H | [H | []]]]; discriminate H.
    + intros e H; discriminate H.
  - intros out Hmodel. subst out. unfold run in Hmodel |- *.
    destruct (orderly_body infer_format parse_text re_beyond format_ts strftime today r0 data' search_id
                           choice [Title; Markdown]) as [Hquiet _].
    { repeat constructor. }
    destruct (body infer_format parse_text re_beyond format_ts strftime today (r0 :: data') search_id
                   choice [Title; Markdown]) as [log [u | | e |]];
      cbn [fst snd] in *.
    + split; [split; intros [e H]; [now apply Hq in H | discriminate H]|].
      intros e H; discriminate H.
    + split; [split; intros [e H]; [now apply Hq in H | discriminate H]|].
      intros e H; discriminate H.
    + split.
      * split; intros _; [now exists e|].
        exists e. apply in_or_app. right. now left.
      * intros e' H. injection H as <-. now exists log.
    + now contradiction Hmodel.
Qed.

Lemma error_box_iff_failed_witness :
  let out := sample_run [[("student_id", Some "10130");
                          ("created_at", Some "2024-03-05T09:12:00");
                          ("feedback_1", Some "O: ok");
                          ("feedback_2", Some "O: ok");
                          ("feedback_3", Some "O: ok")]] "(" 0 in
  snd out = Failed ReError
  /\ exists before,
      fst out = before ++ [ErrorBox ReError; InfoHint]
      /\ Forall quiet before.
Proof.
  intros out.
  assert (H : snd out = Failed ReError) by (vm_compute; reflexivity).
  split; [exact H|].
  apply (error_box_iff_failed sample_infer sample_parse sample_re iso_format
           iso_format "20240306"
           [[("student_id", Some "10130");
             ("created_at", Some "2024-03-05T09:12:00");
             ("feedback_1", Some "O: ok");
             ("feedback_2", Some "O: ok");
             ("feedback_3", Some "O: ok")]] "(" 0).
  - intros Hu. change (snd out = Unmodelled) in Hu. rewrite H in Hu.
    discriminate Hu.
  - exact H.
Defined.

(** X15.  The page stops early exactly when nothing was fetched: with at
    least one record no path of the script reaches [st.stop()]. *)
Theorem stops_iff_no_data
        (infer_format : format_rule) (parse_text : text_parser)
        (re_beyond : pattern_rule) (format_ts strftime : Z -> string)
        (today : string) (data : list record) (search_id : string)
        (choice : nat) :
  snd (run infer_format parse_text re_beyond format_ts strftime today
      data search_id choice) = Stopped
  <-> data = [].
Proof.
  split.
  - intros H. destruct data as [|r0 data']; [reflexivity|]. exfalso.
    unfold run in H.
    destruct (orderly_body infer_format parse_text re_beyond format_ts strftime today r0 data' search_id
                           choice [Title; Markdown]) as [_ Hh].
    { repeat constructor. }
    destruct (body infer_format parse_text re_beyond format_ts strftime today (r0 :: data') search_id
                   choice [Title; Markdown]) as [log [u | | e |]];
      cbn [snd] in *; try discriminate H.
    now apply Hh.
  - intros ->. reflexivity.
Qed.

(** ** Further properties: CSV fields *)

Lemma double_quotes_injective (s1 s2 : string) :
  double_quotes s1 = double_quotes s2 -> s1 = s2.
Proof.
  revert s2; induction s1 as [|a s1 IH]; intros [|b s2] H; simpl in H.
  - reflexivity.
  - destruct (Ascii.eqb b dquote); discriminate H.
  - destruct (Ascii.eqb a dquote); discriminate H.
  - destruct (Ascii.eqb a dquote) eqn:Ea, (Ascii.eqb b dquote) eqn:Eb.
    + injection H as -> H. f_equal. now apply IH.
    + injection H as -> H. congruence.
    + injection H as -> H. congruence.
    + injection H as -> H. f_equal. now apply IH.
Qed.

Lemma append_last_injective (s1 s2 : string) (c : ascii) :
  (s1 ++ String c EmptyString)%string = (s2 ++ String c EmptyString)%string ->
  s1 = s2.
Proof.
  revert s2; induction s1 as [|a s1 IH]; intros [|b s2] H; cbn in H.
  - reflexivity.
  - injection H as _ H. destruct s2; discriminate H.
  - injection H as _ H. destruct s1; discriminate H.
  - injection H as -> H. f_equal. now apply IH.
Qed.

(** X16.  Quoting loses nothing: two different texts are never written as the
    same CSV field. *)
Theorem csv_field_injective (s1 s2 : string) :
  csv_field s1 = csv_field s2 -> s1 = s2.
Proof.
  unfold csv_field.
  assert (Hq : forall s t, needs_quote s = false -> s <> String dquote t).
  { intros s t Hs ->. cbn in Hs. discriminate Hs. }
  destruct (needs_quote s1) eqn:E1, (needs_quote s2) eqn:E2; intros H.
  - injection H as H. apply append_last_injective in H.
    now apply double_quotes_injective.
  - symmetry in H. now apply Hq in H.
  - now apply Hq in H.
  - exact H.
Qed.

Lemma csv_field_injective_witness :
  csv_field "a,b" = String dquote ("a,b" ++ String dquote EmptyString)
  /\ "a,b" = "a,b".
Proof.
  split; [reflexivity|].
  exact (csv_field_injective "a,b" "a,b" eq_refl).
Defined.

(** ** Further properties: the record of the detail view *)

Lemma cell_eqb_spec (a b : cell) : cell_eqb a b = true <-> a = b /\ b <> NA.
Proof.
  destruct a as [|x|x], b as [|y|y]; cbn;
    try (split; [discriminate | intros [H1 H2]; try discriminate H1;
                                 now contradiction H2]).
  - rewrite String.eqb_eq. split; [intros ->; split; [reflexivity | discriminate]|].
    intros [H _]; now injection H.
  - rewrite Z.eqb_eq. split; [intros ->; split; [reflexivity | discriminate]|].
    intros [H _]; now injection H.
Qed.

(** X17.  In any searched view the detail record is the first row whose
    [student_id] cell equals the selected option; when the selected option is
    a missing value no row equals it and the lookup raises IndexError. *)
Theorem detail_row_is_first_match (shown : DataFrame) (options : list cell)
        (sel : cell) :
  getitem shown "student_id" = Val options ->
  (sel = NA -> row shown sel = Raise IndexError)
  /\ (sel <> NA -> In sel options ->
      exists before r after,
        rows shown = before ++ r :: after
        /\ row shown sel = Val r
        /\ row_get (columns shown) r "student_id" = Val sel
        /\ forall r', In r' before ->
                      row_get (columns shown) r' "student_id" <> Val sel).
Proof.
  intros Hg. unfold row, row_get. rewrite Hg. cbn [and_then].
  unfold getitem in Hg.
  destruct (index_of "student_id" (columns shown)) as [i|]; [|discriminate Hg].
  injection Hg as <-. rewrite map_map.
  pose proof (boolean_index_filter (fun r => cell_eqb (nth i r NA) sel)
                                   (fun r => r) (rows shown)) as Hf.
  rewrite !map_id in Hf. rewrite Hf. clear Hf.
  cbn [and_then]. split.
  - intros ->.
    replace (filter (fun r => cell_eqb (nth i r NA) NA) (rows shown)) with
      (@nil (list cell)); [reflexivity|].
    induction (rows shown) as [|r rs IH]; [reflexivity|]. cbn [filter].
    destruct (cell_eqb (nth i r NA) NA) eqn:E; [|exact IH].
    apply cell_eqb_spec in E as [_ E]. contradiction.
  - intros Hsel Hin. apply in_map_iff in Hin as [r0 [Hr0 Hin]].
    induction (rows shown) as [|r rs IH]; [destruct Hin|].
    cbn [filter]. destruct (cell_eqb (nth i r NA) sel) eqn:E.
    + exists [], r, rs. split; [reflexivity|]. split; [reflexivity|].
      apply cell_eqb_spec in E as [-> _]. split; [reflexivity | intros r' []].
    + destruct Hin as [-> | Hin].
      { rewrite Hr0 in E.
        assert (cell_eqb sel sel = true) by (apply cell_eqb_spec; now split).
        congruence. }
      destruct (IH Hin) as [before [r1 [after [Hrows [Hrow [Hget Hbefore]]]]]].
      exists (r :: before), r1, after. split; [cbn; now rewrite Hrows|].
      split; [exact Hrow|]. split; [exact Hget|].
      intros r' [<- | Hr']; [|now apply Hbefore].
      intros H. injection H as H. rewrite H in E.
      assert (cell_eqb sel sel = true) by (apply cell_eqb_spec; now split).
      congruence.
Qed.

Lemma detail_row_is_first_match_witness :
  let shown := pd_DataFrame [[("student_id", Some "10130"); ("answer_1", Some "x")];
                             [("student_id", None); ("answer_1", Some "y")];
                             [("student_id", Some "10130"); ("answer_1", Some "z")]] in
  row shown NA = Raise IndexError
  /\ row shown (Str "10130") = Val [Str "10130"; Str "x"].
Proof.
  intros shown.
  destruct (detail_row_is_first_match shown [Str "10130"; NA; Str "10130"]
              (Str "10130") eq_refl) as [_ H].
  destruct (detail_row_is_first_match shown [Str "10130"; NA; Str "10130"]
              NA eq_refl) as [H0 _].
  split; [exact (H0 eq_refl)|].
  destruct (H ltac:(discriminate) (or_introl eq_refl))
    as [before [r [after [_ [Hrow _]]]]].
  rewrite Hrow. vm_compute in Hrow. exact (eq_sym Hrow).
Defined.

(** ** Further properties: patterns with dots *)

Lemma skip_continuation_plain (s : string) :
  (forall c, In c (list_ascii_of_string s) -> is_continuation c = false) ->
  skip_continuation s = s.
Proof.
  intros H. destruct s as [|c s]; [reflexivity|]. cbn [skip_continuation].
  now rewrite (H c (or_introl eq_refl)).
Qed.

Lemma match_here_startswith (q : string) (p : list atom) (s : string) :
  re_compile q = Some p ->
  (forall c, In c (list_ascii_of_string s) -> is_continuation c = false) ->
  startswith q s = true -> match_here p s = true.
Proof.
  revert p s; induction q as [|c q IH]; intros p s Hp Hs Hq.
  - injection Hp as <-. reflexivity.
  - destruct s as [|d s]; [discriminate Hq|].
    cbn [startswith] in Hq. apply andb_true_iff in Hq as [Hcd Hq].
    apply Ascii.eqb_eq in Hcd. subst d.
    assert (Hs' : forall x, In x (list_ascii_of_string s) ->
                            is_continuation x = false)
      by (intros x Hx; apply Hs; now right).
    cbn [re_compile] in Hp. destruct (Ascii.eqb c dot) eqn:Ed.
    + destruct (re_compile q) as [p'|]; [|discriminate Hp].
      injection Hp as <-. cbn [match_here].
      apply Ascii.eqb_eq in Ed. subst c.
      rewrite skip_continuation_plain by exact Hs'.
      rewrite (IH p' s eq_refl Hs' Hq). reflexivity.
    + destruct (special c); [discriminate Hp|].
      destruct (re_compile q) as [p'|]; [|discriminate Hp].
      injection Hp as <-. cbn [match_here].
      rewrite Ascii.eqb_refl, (IH p' s eq_refl Hs' Hq). reflexivity.
Qed.

Lemma re_search_contains_plain (q : string) (p : list atom) (s : string) :
  re_compile q = Some p ->
  (forall c, In c (list_ascii_of_string s) -> is_continuation c = false) ->
  contains_plain q s = true -> re_search p s = true.
Proof.
  intros Hp. induction s as [|d s IH]; intros Hs Hq.
  - cbn in Hq |- *. rewrite orb_false_r in Hq |- *.
    now apply (match_here_startswith q).
  - cbn [contains_plain] in Hq. cbn [re_search].
    apply orb_true_iff in Hq as [Hq | Hq].
    + rewrite (match_here_startswith q p _ Hp Hs Hq). reflexivity.
    + rewrite IH; [apply orb_true_r | | exact Hq].
      intros x Hx. apply Hs. now right.
Qed.

(** X18.  A query made of ordinary characters and dots finds at least what a
    plain substring search would find: among student ids without multi-byte
    characters, every submission whose id contains the query text is in the
    searched view. *)
Theorem pattern_search_covers_plain_search (re_beyond : pattern_rule)
        (subs : list Submission)
        (search_id : string) (p : list atom) :
  re_compile search_id = Some p ->
  (forall s c, In s subs -> In c (list_ascii_of_string (student_id s)) ->
               is_continuation c = false) ->
  exists view,
    display_df re_beyond (frame subs) search_id = Val (frame view)
    /\ forall s, In s subs -> substring_of search_id (student_id s) ->
                 In s view.
Proof.
  intros Hp Hascii. destruct search_id as [|c q].
  - exists subs. split; [reflexivity | auto].
  - exists (filter (fun s => re_search p (student_id s)) subs). split.
    + cbn [display_df]. rewrite getitem_student_id. cbn [and_then].
      unfold str_contains. rewrite Hp. cbn [and_then].
      rewrite map_map. cbn [rows frame].
      rewrite (boolean_index_filter (fun s => re_search p (student_id s))).
      reflexivity.
    + intros s Hs Hsub. apply filter_In. split; [exact Hs|].
      apply (re_search_contains_plain (String c q)); [exact Hp | |].
      * intros x Hx. now apply (Hascii s).
      * now apply contains_plain_spec.
Qed.

Lemma pattern_search_covers_plain_search_witness :
  let a := mkSubmission "10.30" "a" "b" "c" "O: ok" "X: no" "O: ok" "m" 0 in
  let b := mkSubmission "10130" "a" "b" "c" "O: ok" "X: no" "O: ok" "m" 1 in
  exists view,
    display_df sample_re (frame [a; b]) "0.3" = Val (frame view) /\ In a view.
Proof.
  intros a b.
  destruct (pattern_search_covers_plain_search sample_re [a; b] "0.3"
              [Lit "0"; AnyChar; Lit "3"]%char eq_refl) as [view [Hv Hin]].
  - intros s c [<- | [<- | []]] Hc; cbn in Hc;
      repeat (destruct Hc as [<- | Hc]; [reflexivity|]); destruct Hc.
  - exists view. split; [exact Hv|]. apply Hin; [now left|].
    apply contains_plain_spec. reflexivity.
Defined.

(** ** Further properties: the log only grows *)

Lemma grows_ret {A} (a : A) : grows (ret a).
Proof. intros log. exists []. cbn. now rewrite app_nil_r. Qed.

Lemma grows_emit (w : widget) : grows (emit w).
Proof. intros log. now exists [w]. Qed.

Lemma grows_lift {A} (o : outcome A) : grows (lift o).
Proof. intros log. exists []. cbn. now rewrite app_nil_r. Qed.

Lemma grows_bind {A B} (m : M A) (k : A -> M B) :
  grows m -> (forall a, grows (k a)) -> grows (bind m k).
Proof.
  intros Hm Hk log. unfold bind. destruct (Hm log) as [r1 H1].
  destruct (m log) as [log' [a | | e |]]; cbn [fst] in H1; subst log';
    try (now exists r1).
  destruct (Hk a (log ++ r1)) as [r2 H2]. exists (r1 ++ r2).
  now rewrite H2, app_assoc.
Qed.

Ltac grows_step :=
  first [ apply grows_emit | apply grows_ret | apply grows_lift
        | apply grows_bind; [|intros ?] ].

Lemma grows_after_metrics (re_beyond : pattern_rule)
      (format_ts strftime : Z -> string) (today : string)
      (df : DataFrame) (search_id : string) (choice : nat) (passed : Z * Z * Z) :
  grows (charts df passed ;;;
         search_and_detail re_beyond strftime df search_id choice ;;;
         table_and_export format_ts today df).
Proof.
  destruct passed as [[q1 q2] q3].
  unfold charts, search_and_detail, table_and_export. repeat grows_step.
  match goal with |- grows (if ?b then _ else _) => destruct b end;
    [apply grows_ret|].
  unfold detail. repeat grows_step.
  match goal with |- grows (match ?c with _ => _ end) => destruct c end;
    repeat grows_step.
Qed.

Lemma emit_comes_first {A B} (w : widget) (k : M A) (k2 : A -> M B)
      (log : list widget) :
  grows k -> (forall a, grows (k2 a)) ->
  exists rest,
    fst (bind (bind (emit w) (fun _ => k)) k2 log) = log ++ w :: rest.
Proof.
  intros Hk Hk2.
  change (bind (bind (emit w) (fun _ => k)) k2 log)
    with (bind k k2 (log ++ [w])).
  destruct (grows_bind k k2 Hk Hk2 (log ++ [w])) as [rest H].
  exists rest. rewrite H, <- app_assoc. reflexivity.
Qed.

(** X19.  Once the batch has loaded, the page always shows the number of
    fetched records as the total, right after title and caption, whatever
    the later steps do. *)
Theorem total_is_number_of_records
        (infer_format : format_rule) (parse_text : text_parser)
        (re_beyond : pattern_rule) (format_ts strftime : Z -> string)
        (today : string) (data : list record) (search_id : string)
        (choice : nat) (df : DataFrame) :
  load infer_format parse_text data [Title; Markdown] = ([Title; Markdown], Val df) ->
  exists rest,
    fst (run infer_format parse_text re_beyond format_ts strftime today
      data search_id choice)
    = [Title; Markdown; MetricTotal (Z.of_nat (List.length data))] ++ rest.
Proof.
  intros Hload. destruct (load_len _ _ _ _ _ _ Hload) as [Hlen _].
  unfold run, body. unfold bind at 1. rewrite Hload.
  match goal with
  | |- context [bind (metrics df) ?k2 ?l] =>
      assert (Hfirst : exists rest,
                 fst (bind (metrics df) k2 l) = l ++ MetricTotal (len df) :: rest)
  end.
  { unfold metrics. apply emit_comes_first.
    - repeat grows_step.
    - intros passed. apply grows_after_metrics. }
  destruct Hfirst as [rest Hrest]. rewrite Hlen in Hrest.
  match goal with
  | |- context [let (_, _) := ?m in _] => destruct m as [log [u | | e |]]
  end; cbn [fst] in *; subst log.
  - now exists rest.
  - now exists rest.
  - exists (rest ++ [ErrorBox e; InfoHint]).
    cbn. reflexivity.
  - now exists rest.
Qed.

Lemma total_is_number_of_records_witness :
  exists rest,
    fst (sample_run [[("student_id", Some "10130");
                      ("created_at", Some "2024-03-05T09:12:00")]] EmptyString 0)
    = [Title; Markdown; MetricTotal 1] ++ rest.
Proof.
  apply (total_is_number_of_records
           sample_infer sample_parse sample_re iso_format iso_format "20240306"
           [[("student_id", Some "10130");
             ("created_at", Some "2024-03-05T09:12:00")]] EmptyString 0
           (mkDF ["student_id"; "created_at"]
                 [[Str "10130"; Ts 1709629920000000000]])).
  vm_compute. reflexivity.
Defined.
